(** * The [Stock] forecasting wrapper of the stock-price notebook

    A shallow embedding of the [Stock] class (data preparation, chronological
    split, delegated training, evaluation) together with the Python, NumPy and
    scikit-learn operations its methods call.

    - NumPy's [float64] is Rocq's primitive binary64 [float]; Python's [int] is [Z].
    - An n-dimensional array is a nested list of its entries.
    - A method is a function from the instance to the mutated instance and
      either its return value or the exception it raised: attributes assigned
      before an exception stay assigned, as in Python. *)

From Stdlib Require Import String ZArith List Bool Floats Lia.
From Stdlib Require Import Permutation Sorted.
Import ListNotations.

#[local] Set Warnings "-inexact-float".
#[local] Open Scope Z_scope.

(** ** Exceptions and results *)

(** The exception classes that can reach the caller of a [Stock] method.
    The first group is raised by Python, NumPy, scikit-learn and Keras; the
    second group is the error vocabulary of the specification, which no line of
    the notebook raises or defines. *)
Inductive exn : Type :=
  | ValueError | OverflowError | TypeError | AttributeError | IndexError
  | AssertionError | NotFittedError | NotImplementedError
  | DataLoadError | InsufficientDataError | ConfigurationError
  | SequenceError | TrainingError | NotTrainedError.

Inductive result (A : Type) : Type :=
  | Ok (a : A)
  | Raise (e : exn).
Arguments Ok {A} a.
Arguments Raise {A} e.

(** A list comprehension whose body may raise. *)
Fixpoint mapM {A B} (f : A -> result B) (l : list A) : result (list B) :=
  match l with
  | [] => Ok []
  | a :: l' =>
      match f a with
      | Raise e => Raise e
      | Ok b =>
          match mapM f l' with
          | Raise e => Raise e
          | Ok bs => Ok (b :: bs)
          end
      end
  end.

(** ** Python integers, floats and sequences *)

Definition len {A} (l : list A) : Z := Z.of_nat (length l).

(** [float(z)]: conversion of an [int] to the nearest binary64, ties to even. *)
Definition float_of_int (z : Z) : float :=
  SF2Prim (binary_normalize prec emax z 0 false).

(** The integer part of a finite float, towards zero. *)
Definition trunc_finite (s : bool) (m : positive) (e : Z) : Z :=
  let a := if 0 <=? e then Z.pos m * 2 ^ e else Z.pos m / 2 ^ (- e) in
  if s then - a else a.

(** [int(x)] on a float truncates towards zero; it raises [ValueError] on NaN
    and [OverflowError] on an infinity. *)
Definition py_int (x : float) : result Z :=
  match Prim2SF x with
  | S754_nan => Raise ValueError
  | S754_infinity _ => Raise OverflowError
  | S754_zero _ => Ok 0
  | S754_finite s m e => Ok (trunc_finite s m e)
  end.

(** [math.floor(x)]. *)
Definition py_floor (x : float) : result Z :=
  match Prim2SF x with
  | S754_nan => Raise ValueError
  | S754_infinity _ => Raise OverflowError
  | S754_zero _ => Ok 0
  | S754_finite s m e =>
      Ok (if 0 <=? e then trunc_finite s m e
          else if s then - ((Z.pos m + 2 ^ (- e) - 1) / 2 ^ (- e))
               else Z.pos m / 2 ^ (- e))
  end.

(** [range(n)]; empty when [n <= 0]. *)
Definition py_range (n : Z) : list Z := map Z.of_nat (seq 0 (Z.to_nat n)).

(** How a slice bound [k] is adjusted to a sequence of length [n]: a negative
    bound counts from the end, and the bound is clamped to [0, n]. *)
Definition clamp_index (n k : Z) : Z :=
  if k <? 0 then Z.max 0 (k + n) else Z.min k n.

(** [l[lo:hi]] with step 1; [None] is an omitted bound. Slicing never raises. *)
Definition slice {A} (lo hi : option Z) (l : list A) : list A :=
  let n := len l in
  let a := match lo with None => 0 | Some k => clamp_index n k end in
  let b := match hi with None => n | Some k => clamp_index n k end in
  firstn (Z.to_nat (b - a)) (skipn (Z.to_nat a) l).

(** [l[k]] on a one-dimensional array: a negative index counts from the end,
    an index outside [-n, n) raises [IndexError]. *)
Definition py_index {A} (l : list A) (k : Z) : result A :=
  let n := len l in
  let j := if k <? 0 then k + n else k in
  if (0 <=? j) && (j <? n) then
    match nth_error l (Z.to_nat j) with
    | Some a => Ok a
    | None => Raise IndexError
    end
  else Raise IndexError.

(** Values that reach the [+] operator in the notebook. A NumPy float scalar
    behaves like a float here: adding it to a [str] has no implementation on
    either side and raises [TypeError]. *)
Inductive pyobj : Type :=
  | PyStr (s : string)
  | PyInt (z : Z)
  | PyFloat (x : float).

Definition py_add (a b : pyobj) : result pyobj :=
  match a, b with
  | PyStr s, PyStr t => Ok (PyStr (s ++ t)%string)
  | PyInt x, PyInt y => Ok (PyInt (x + y))
  | PyFloat x, PyFloat y => Ok (PyFloat (x + y)%float)
  | PyInt x, PyFloat y => Ok (PyFloat (float_of_int x + y)%float)
  | PyFloat x, PyInt y => Ok (PyFloat (x + float_of_int y)%float)
  | _, _ => Raise TypeError
  end.

(** ** NumPy arrays *)

Definition array1 := list float.
Definition array2 := list array1.
Definition array3 := list array2.

(** Number of columns of a two-dimensional array: the length of its first
    row, and 0 for an array without rows. *)
Definition width (X : array2) : nat :=
  match X with
  | [] => 0%nat
  | r :: _ => length r
  end.

(** [np.array(l)] on a list of two-dimensional arrays of one width: the arrays
    are stacked when they all have the same number of rows; a ragged list
    raises [ValueError] (inhomogeneous shape; NumPy before 1.24 built an array
    of objects instead). *)
Definition np_array3 (l : list array2) : result array3 :=
  match l with
  | [] => Ok []
  | a :: _ =>
      if forallb (fun b => (length b =? length a)%nat) l then Ok l
      else Raise ValueError
  end.

(** [np.expand_dims(a, -1)] on a one-dimensional array: shape (n,) to (n, 1). *)
Definition expand_dims (a : array1) : array2 := map (fun v => [v]) a.

(** [X[:, j]] for a constant non-negative [j]; [IndexError] when a row has no
    column [j]. (An array without rows has every column in this model.) *)
Definition np_column (j : nat) (X : array2) : result array1 :=
  mapM (fun r => match nth_error r j with
                 | Some v => Ok v
                 | None => Raise IndexError
                 end) X.

(** The summation of NumPy's [add] reduction over a run of doubles
    ([pairwise_sum]). Fewer than 8 elements are added one by one, from -0. Up
    to 128 elements are added into 8 accumulators, element [i] into
    accumulator [i mod 8] for as long as a whole group of 8 is left; the
    accumulators are then added pairwise, and the elements left over are added
    one by one. *)
Fixpoint unrolled_sum (r0 r1 r2 r3 r4 r5 r6 r7 : float) (a : array1) : float :=
  match a with
  | a0 :: a1 :: a2 :: a3 :: a4 :: a5 :: a6 :: a7 :: rest =>
      unrolled_sum (r0 + a0) (r1 + a1) (r2 + a2) (r3 + a3)
                   (r4 + a4) (r5 + a5) (r6 + a6) (r7 + a7) rest
  | _ =>
      fold_left PrimFloat.add a
        (((r0 + r1) + (r2 + r3)) + ((r4 + r5) + (r6 + r7)))
  end%float.

Definition pairwise_block (a : array1) : float :=
  match a with
  | a0 :: a1 :: a2 :: a3 :: a4 :: a5 :: a6 :: a7 :: rest =>
      unrolled_sum a0 a1 a2 a3 a4 a5 a6 a7 rest
  | _ => fold_left PrimFloat.add a (-0)%float
  end.

(** A longer run is cut in two at a multiple of 8 near its middle, and the
    sums of the two parts are added. The recursion is on [fuel], which the
    length of the run more than covers. *)
Fixpoint pairwise_sum (fuel : nat) (a : array1) : float :=
  match fuel with
  | O => pairwise_block a
  | S fuel' =>
      if (128 <? length a)%nat then
        let n2 := (length a / 2 - (length a / 2) mod 8)%nat in
        (pairwise_sum fuel' (firstn n2 a) + pairwise_sum fuel' (skipn n2 a))%float
      else pairwise_block a
  end.

(** [np.sum(a)] over all the entries of a contiguous or strided array of
    doubles: the reduction starts from the identity 0 and adds the pairwise sum
    of the entries to it. *)
Definition np_sum (a : array1) : float :=
  (0 + pairwise_sum (length a) a)%float.

(** [np.mean(a)]: the sum over the count; NaN (0/0) on an empty array. *)
Definition np_mean (a : array1) : float :=
  (np_sum a / float_of_int (len a))%float.

(** NaN-propagating binary maximum and minimum, as [np.max] and [np.min]. *)
Definition fmax (a b : float) : float :=
  if is_nan a then a else if is_nan b then b else if (a <? b)%float then b else a.
Definition fmin (a b : float) : float :=
  if is_nan a then a else if is_nan b then b else if (b <? a)%float then b else a.

(** [np.max(a)] and [np.min(a)] over all entries; they raise [ValueError] on an
    array without entries. *)
Definition np_max (a : array1) : result float :=
  match a with
  | [] => Raise ValueError
  | x :: r => Ok (fold_left fmax r x)
  end.
Definition np_min (a : array1) : result float :=
  match a with
  | [] => Raise ValueError
  | x :: r => Ok (fold_left fmin r x)
  end.

(** NaN-ignoring minimum and maximum, as [np.nanmin] and [np.nanmax] along a
    column; NaN when every entry is NaN. *)
Definition nan_min (a b : float) : float :=
  if is_nan a then b else if is_nan b then a else if (b <? a)%float then b else a.
Definition nan_max (a b : float) : float :=
  if is_nan a then b else if is_nan b then a else if (a <? b)%float then b else a.
Definition np_nanmin (a : array1) : float := fold_left nan_min a nan.
Definition np_nanmax (a : array1) : float := fold_left nan_max a nan.

(** NumPy broadcasting along one axis: equal lengths pair up, a length-1 side
    is repeated, anything else raises [ValueError]. *)
Definition broadcast {A B C} (f : A -> B -> result C)
    (x : list A) (y : list B) : result (list C) :=
  if (length x =? length y)%nat then mapM (fun p => f (fst p) (snd p)) (combine x y)
  else match x, y with
       | [a], _ => mapM (f a) y
       | _, [b] => mapM (fun a => f a b) x
       | _, _ => Raise ValueError
       end.

(** [x - y] on two-dimensional arrays. *)
Definition np_sub2 (x y : array2) : result array2 :=
  broadcast (broadcast (fun a b => Ok (a - b)%float)) x y.

(** [np.square] followed by [np.mean] over all entries. *)
Definition mean_square (d : array2) : float :=
  np_mean (map (fun v => (v * v)%float) (concat d)).
Arguments mean_square : simpl never.

(** ** scikit-learn's [MinMaxScaler] *)

(** A scaler attribute holds the class object itself (as the constructor of
    [Stock] stores it), a fresh instance, or an instance fitted with one
    [scale_] and one [min_] entry per feature. *)
Inductive MinMaxScaler : Type :=
  | MinMaxScaler_class
  | MinMaxScaler_new
  | MinMaxScaler_fitted (scale_ min_ : array1).

Definition has_inf (X : array2) : bool := existsb (existsb is_infinity) X.

(** Input validation of every scaler entry point: infinities are rejected
    (NaN is allowed), and at least one sample and one feature are required.
    Every rejection is a [ValueError]. *)
Definition check_array (X : array2) : result unit :=
  if has_inf X then Raise ValueError
  else match X with
       | [] => Raise ValueError
       | [] :: _ => Raise ValueError
       | (_ :: _) :: _ => Ok tt
       end.

(** A range below ten machine epsilons (10 * 2^-52) counts as constant and is
    replaced by 1. *)
Definition handle_zeros_in_scale (r : float) : float :=
  if (r <? 0x1.4p-49)%float then 1%float else r.

(** Column [j] of the samples. *)
Definition column (j : nat) (X : array2) : array1 := map (fun r => nth j r nan) X.

(** The fitted parameters of one feature for [feature_range = (0, 1)]:
    [scale_ = (1 - 0) / handle_zeros(max - min)] and [min_ = 0 - min * scale_]. *)
Definition fit_feature (c : array1) : float * float :=
  let data_min := np_nanmin c in
  let data_max := np_nanmax c in
  let scale := ((1 - 0) / handle_zeros_in_scale (data_max - data_min))%float in
  (scale, (0 - data_min * scale)%float).

(** [self.data] as scikit-learn and NumPy see it. [pd.read_csv] is called with
    [squeeze=True], so a table with a single data column is held as a
    one-dimensional Series, which has no second axis: the scaler rejects it
    ([ValueError], a 2D array is expected) and [shape[1]] does not exist
    ([IndexError]). A table with more columns is a DataFrame. (A table
    without rows has width 0 here, and counts as a DataFrame.) *)
Definition is_Series (X : array2) : bool := (width X =? 1)%nat.

Definition as_2d (X : array2) : result array2 :=
  if is_Series X then Raise ValueError else Ok X.

Definition shape_1 (X : array2) : result Z :=
  if is_Series X then Raise IndexError else Ok (Z.of_nat (width X)).

(** [MinMaxScaler().fit(X)]: the minimum and maximum of every column of [X],
    over all the rows of [X]. *)
Definition MinMaxScaler_fit (X : array2) : result MinMaxScaler :=
  match check_array X with
  | Raise e => Raise e
  | Ok _ =>
      let params := map (fun j => fit_feature (column j X)) (seq 0 (width X)) in
      Ok (MinMaxScaler_fitted (map fst params) (map snd params))
  end.

(** An in-place row operation [r op= p]: [p] has one entry per column of [r],
    or a single entry that is repeated. *)
Definition row_op (f : float -> float -> float) (p r : array1) : result array1 :=
  if (length p =? length r)%nat
  then Ok (map (fun xy => f (fst xy) (snd xy)) (combine r p))
  else match p with
       | [c] => Ok (map (fun x => f x c) r)
       | _ => Raise ValueError
       end.

(** [sc.transform(X)]: [X *= scale_; X += min_] on a copy of [X]. *)
Definition MinMaxScaler_transform (sc : MinMaxScaler) (X : array2) : result array2 :=
  match sc with
  | MinMaxScaler_class => Raise TypeError
  | MinMaxScaler_new => Raise NotFittedError
  | MinMaxScaler_fitted scale min_ =>
      match check_array X with
      | Raise e => Raise e
      | Ok _ =>
          match mapM (row_op PrimFloat.mul scale) X with
          | Raise e => Raise e
          | Ok X1 => mapM (row_op PrimFloat.add min_) X1
          end
      end
  end.

(** [sc.inverse_transform(X)]: [X -= min_; X /= scale_] on a copy of [X].
    Called on the class object it lacks its argument ([TypeError]). *)
Definition MinMaxScaler_inverse_transform (sc : MinMaxScaler) (X : array2)
  : result array2 :=
  match sc with
  | MinMaxScaler_class => Raise TypeError
  | MinMaxScaler_new => Raise NotFittedError
  | MinMaxScaler_fitted scale min_ =>
      match check_array X with
      | Raise e => Raise e
      | Ok _ =>
          match mapM (row_op PrimFloat.sub min_) X with
          | Raise e => Raise e
          | Ok X1 => mapM (row_op PrimFloat.div scale) X1
          end
      end
  end.

(** ** The Keras model attribute *)

(** The network that [fit_LSTM] assembles: an LSTM branch over windows of
    [input_steps] rows and [input_features] columns, a dense branch over
    [indicator_features] indicators, and one linear output unit. *)
Record architecture : Type := {
  input_steps : Z;
  input_features : Z;
  indicator_features : Z;
  lstm_units : Z
}.

(** The arguments of the [model.fit] call. *)
Record training : Type := {
  train_x : option array3;
  train_ind : option array2;
  train_y : option array2;
  fit_batch_size : Z;
  fit_epochs : Z
}.

(** The [model] attribute: the empty [keras.Model()] of the constructor, the
    compiled network, or the network after [model.fit]. The weights are the
    engine's business; a fitted model is identified by the call that fitted it. *)
Inductive keras_model : Type :=
  | Model_empty
  | Model_compiled (a : architecture)
  | Model_fitted (a : architecture) (t : training).

(** ** The [Stock] instance *)

(** Array attributes are [None] while they still hold the placeholder
    [np.array] (a function object) that the constructor stores.
    [nextDaysVals_test] is the attribute the constructor creates under that
    spelling; [nextDayVals_test] is the one [split_data] creates and
    [evaluate_forecasts] reads, absent ([None]) until then.
    [stdout] is everything [print] has written. *)
Record Stock : Type := {
  data : array2;
  name : string;
  train_samplesX : option array3;
  test_samplesX : option array3;
  train_samplesY : option array2;
  test_samplesY : option array2;
  scaler : MinMaxScaler;
  normalizedData : option array2;
  normDataHistory : option array3;
  nextDayVals : option array2;
  nextDaysVals_test : option array2;
  nextDayValsNorm : option array2;
  model : keras_model;
  indicators : option array2;
  indicatorsNorm : option array2;
  indicators_train : option array2;
  indicators_test : option array2;
  indicatorScaler : MinMaxScaler;
  testProp : float;
  numLag : Z;
  numSeq : Z;
  numEpochs : Z;
  numNeurons : Z;
  batchSize : Z;
  nextDayVals_test : option array2;
  stdout : list pyobj
}.

(** Attribute assignment. *)
Definition set_train_samplesX (v : option array3) (s : Stock) : Stock :=
  Build_Stock
    (data s) (name s) v (test_samplesX s) (train_samplesY s) (test_samplesY s)
    (scaler s) (normalizedData s) (normDataHistory s) (nextDayVals s)
    (nextDaysVals_test s) (nextDayValsNorm s) (model s) (indicators s)
    (indicatorsNorm s) (indicators_train s) (indicators_test s)
    (indicatorScaler s) (testProp s) (numLag s) (numSeq s) (numEpochs s)
    (numNeurons s) (batchSize s) (nextDayVals_test s) (stdout s).
Definition set_test_samplesX (v : option array3) (s : Stock) : Stock :=
  Build_Stock
    (data s) (name s) (train_samplesX s) v (train_samplesY s) (test_samplesY s)
    (scaler s) (normalizedData s) (normDataHistory s) (nextDayVals s)
    (nextDaysVals_test s) (nextDayValsNorm s) (model s) (indicators s)
    (indicatorsNorm s) (indicators_train s) (indicators_test s)
    (indicatorScaler s) (testProp s) (numLag s) (numSeq s) (numEpochs s)
    (numNeurons s) (batchSize s) (nextDayVals_test s) (stdout s).
Definition set_train_samplesY (v : option array2) (s : Stock) : Stock :=
  Build_Stock
    (data s) (name s) (train_samplesX s) (test_samplesX s) v (test_samplesY s)
    (scaler s) (normalizedData s) (normDataHistory s) (nextDayVals s)
    (nextDaysVals_test s) (nextDayValsNorm s) (model s) (indicators s)
    (indicatorsNorm s) (indicators_train s) (indicators_test s)
    (indicatorScaler s) (testProp s) (numLag s) (numSeq s) (numEpochs s)
    (numNeurons s) (batchSize s) (nextDayVals_test s) (stdout s).
Definition set_test_samplesY (v : option array2) (s : Stock) : Stock :=
  Build_Stock
    (data s) (name s) (train_samplesX s) (test_samplesX s) (train_samplesY s) v
    (scaler s) (normalizedData s) (normDataHistory s) (nextDayVals s)
    (nextDaysVals_test s) (nextDayValsNorm s) (model s) (indicators s)
    (indicatorsNorm s) (indicators_train s) (indicators_test s)
    (indicatorScaler s) (testProp s) (numLag s) (numSeq s) (numEpochs s)
    (numNeurons s) (batchSize s) (nextDayVals_test s) (stdout s).
Definition set_scaler (v : MinMaxScaler) (s : Stock) : Stock :=
  Build_Stock
    (data s) (name s) (train_samplesX s) (test_samplesX s) (train_samplesY s)
    (test_samplesY s) v (normalizedData s) (normDataHistory s) (nextDayVals s)
    (nextDaysVals_test s) (nextDayValsNorm s) (model s) (indicators s)
    (indicatorsNorm s) (indicators_train s) (indicators_test s)
    (indicatorScaler s) (testProp s) (numLag s) (numSeq s) (numEpochs s)
    (numNeurons s) (batchSize s) (nextDayVals_test s) (stdout s).
Definition set_normalizedData (v : option array2) (s : Stock) : Stock :=
  Build_Stock
    (data s) (name s) (train_samplesX s) (test_samplesX s) (train_samplesY s)
    (test_samplesY s) (scaler s) v (normDataHistory s) (nextDayVals s)
    (nextDaysVals_test s) (nextDayValsNorm s) (model s) (indicators s)
    (indicatorsNorm s) (indicators_train s) (indicators_test s)
    (indicatorScaler s) (testProp s) (numLag s) (numSeq s) (numEpochs s)
    (numNeurons s) (batchSize s) (nextDayVals_test s) (stdout s).
Definition set_normDataHistory (v : option array3) (s : Stock) : Stock :=
  Build_Stock
    (data s) (name s) (train_samplesX s) (test_samplesX s) (train_samplesY s)
    (test_samplesY s) (scaler s) (normalizedData s) v (nextDayVals s)
    (nextDaysVals_test s) (nextDayValsNorm s) (model s) (indicators s)
    (indicatorsNorm s) (indicators_train s) (indicators_test s)
    (indicatorScaler s) (testProp s) (numLag s) (numSeq s) (numEpochs s)
    (numNeurons s) (batchSize s) (nextDayVals_test s) (stdout s).
Definition set_nextDayVals (v : option array2) (s : Stock) : Stock :=
  Build_Stock
    (data s) (name s) (train_samplesX s) (test_samplesX s) (train_samplesY s)
    (test_samplesY s) (scaler s) (normalizedData s) (normDataHistory s) v
    (nextDaysVals_test s) (nextDayValsNorm s) (model s) (indicators s)
    (indicatorsNorm s) (indicators_train s) (indicators_test s)
    (indicatorScaler s) (testProp s) (numLag s) (numSeq s) (numEpochs s)
    (numNeurons s) (batchSize s) (nextDayVals_test s) (stdout s).
Definition set_nextDayValsNorm (v : option array2) (s : Stock) : Stock :=
  Build_Stock
    (data s) (name s) (train_samplesX s) (test_samplesX s) (train_samplesY s)
    (test_samplesY s) (scaler s) (normalizedData s) (normDataHistory s)
    (nextDayVals s) (nextDaysVals_test s) v (model s) (indicators s)
    (indicatorsNorm s) (indicators_train s) (indicators_test s)
    (indicatorScaler s) (testProp s) (numLag s) (numSeq s) (numEpochs s)
    (numNeurons s) (batchSize s) (nextDayVals_test s) (stdout s).
Definition set_model (v : keras_model) (s : Stock) : Stock :=
  Build_Stock
    (data s) (name s) (train_samplesX s) (test_samplesX s) (train_samplesY s)
    (test_samplesY s) (scaler s) (normalizedData s) (normDataHistory s)
    (nextDayVals s) (nextDaysVals_test s) (nextDayValsNorm s) v (indicators s)
    (indicatorsNorm s) (indicators_train s) (indicators_test s)
    (indicatorScaler s) (testProp s) (numLag s) (numSeq s) (numEpochs s)
    (numNeurons s) (batchSize s) (nextDayVals_test s) (stdout s).
Definition set_indicators (v : option array2) (s : Stock) : Stock :=
  Build_Stock
    (data s) (name s) (train_samplesX s) (test_samplesX s) (train_samplesY s)
    (test_samplesY s) (scaler s) (normalizedData s) (normDataHistory s)
    (nextDayVals s) (nextDaysVals_test s) (nextDayValsNorm s) (model s) v
    (indicatorsNorm s) (indicators_train s) (indicators_test s)
    (indicatorScaler s) (testProp s) (numLag s) (numSeq s) (numEpochs s)
    (numNeurons s) (batchSize s) (nextDayVals_test s) (stdout s).
Definition set_indicatorsNorm (v : option array2) (s : Stock) : Stock :=
  Build_Stock
    (data s) (name s) (train_samplesX s) (test_samplesX s) (train_samplesY s)
    (test_samplesY s) (scaler s) (normalizedData s) (normDataHistory s)
    (nextDayVals s) (nextDaysVals_test s) (nextDayValsNorm s) (model s)
    (indicators s) v (indicators_train s) (indicators_test s)
    (indicatorScaler s) (testProp s) (numLag s) (numSeq s) (numEpochs s)
    (numNeurons s) (batchSize s) (nextDayVals_test s) (stdout s).
Definition set_indicators_train (v : option array2) (s : Stock) : Stock :=
  Build_Stock
    (data s) (name s) (train_samplesX s) (test_samplesX s) (train_samplesY s)
    (test_samplesY s) (scaler s) (normalizedData s) (normDataHistory s)
    (nextDayVals s) (nextDaysVals_test s) (nextDayValsNorm s) (model s)
    (indicators s) (indicatorsNorm s) v (indicators_test s) (indicatorScaler s)
    (testProp s) (numLag s) (numSeq s) (numEpochs s) (numNeurons s)
    (batchSize s) (nextDayVals_test s) (stdout s).
Definition set_indicators_test (v : option array2) (s : Stock) : Stock :=
  Build_Stock
    (data s) (name s) (train_samplesX s) (test_samplesX s) (train_samplesY s)
    (test_samplesY s) (scaler s) (normalizedData s) (normDataHistory s)
    (nextDayVals s) (nextDaysVals_test s) (nextDayValsNorm s) (model s)
    (indicators s) (indicatorsNorm s) (indicators_train s) v (indicatorScaler s)
    (testProp s) (numLag s) (numSeq s) (numEpochs s) (numNeurons s)
    (batchSize s) (nextDayVals_test s) (stdout s).
Definition set_indicatorScaler (v : MinMaxScaler) (s : Stock) : Stock :=
  Build_Stock
    (data s) (name s) (train_samplesX s) (test_samplesX s) (train_samplesY s)
    (test_samplesY s) (scaler s) (normalizedData s) (normDataHistory s)
    (nextDayVals s) (nextDaysVals_test s) (nextDayValsNorm s) (model s)
    (indicators s) (indicatorsNorm s) (indicators_train s) (indicators_test s) v
    (testProp s) (numLag s) (numSeq s) (numEpochs s) (numNeurons s)
    (batchSize s) (nextDayVals_test s) (stdout s).
Definition set_testProp (v : float) (s : Stock) : Stock :=
  Build_Stock
    (data s) (name s) (train_samplesX s) (test_samplesX s) (train_samplesY s)
    (test_samplesY s) (scaler s) (normalizedData s) (normDataHistory s)
    (nextDayVals s) (nextDaysVals_test s) (nextDayValsNorm s) (model s)
    (indicators s) (indicatorsNorm s) (indicators_train s) (indicators_test s)
    (indicatorScaler s) v (numLag s) (numSeq s) (numEpochs s) (numNeurons s)
    (batchSize s) (nextDayVals_test s) (stdout s).
Definition set_numSeq (v : Z) (s : Stock) : Stock :=
  Build_Stock
    (data s) (name s) (train_samplesX s) (test_samplesX s) (train_samplesY s)
    (test_samplesY s) (scaler s) (normalizedData s) (normDataHistory s)
    (nextDayVals s) (nextDaysVals_test s) (nextDayValsNorm s) (model s)
    (indicators s) (indicatorsNorm s) (indicators_train s) (indicators_test s)
    (indicatorScaler s) (testProp s) (numLag s) v (numEpochs s) (numNeurons s)
    (batchSize s) (nextDayVals_test s) (stdout s).
Definition set_numEpochs (v : Z) (s : Stock) : Stock :=
  Build_Stock
    (data s) (name s) (train_samplesX s) (test_samplesX s) (train_samplesY s)
    (test_samplesY s) (scaler s) (normalizedData s) (normDataHistory s)
    (nextDayVals s) (nextDaysVals_test s) (nextDayValsNorm s) (model s)
    (indicators s) (indicatorsNorm s) (indicators_train s) (indicators_test s)
    (indicatorScaler s) (testProp s) (numLag s) (numSeq s) v (numNeurons s)
    (batchSize s) (nextDayVals_test s) (stdout s).
Definition set_numNeurons (v : Z) (s : Stock) : Stock :=
  Build_Stock
    (data s) (name s) (train_samplesX s) (test_samplesX s) (train_samplesY s)
    (test_samplesY s) (scaler s) (normalizedData s) (normDataHistory s)
    (nextDayVals s) (nextDaysVals_test s) (nextDayValsNorm s) (model s)
    (indicators s) (indicatorsNorm s) (indicators_train s) (indicators_test s)
    (indicatorScaler s) (testProp s) (numLag s) (numSeq s) (numEpochs s) v
    (batchSize s) (nextDayVals_test s) (stdout s).
Definition set_batchSize (v : Z) (s : Stock) : Stock :=
  Build_Stock
    (data s) (name s) (train_samplesX s) (test_samplesX s) (train_samplesY s)
    (test_samplesY s) (scaler s) (normalizedData s) (normDataHistory s)
    (nextDayVals s) (nextDaysVals_test s) (nextDayValsNorm s) (model s)
    (indicators s) (indicatorsNorm s) (indicators_train s) (indicators_test s)
    (indicatorScaler s) (testProp s) (numLag s) (numSeq s) (numEpochs s)
    (numNeurons s) v (nextDayVals_test s) (stdout s).
Definition set_nextDayVals_test (v : option array2) (s : Stock) : Stock :=
  Build_Stock
    (data s) (name s) (train_samplesX s) (test_samplesX s) (train_samplesY s)
    (test_samplesY s) (scaler s) (normalizedData s) (normDataHistory s)
    (nextDayVals s) (nextDaysVals_test s) (nextDayValsNorm s) (model s)
    (indicators s) (indicatorsNorm s) (indicators_train s) (indicators_test s)
    (indicatorScaler s) (testProp s) (numLag s) (numSeq s) (numEpochs s)
    (numNeurons s) (batchSize s) v (stdout s).
Definition set_stdout (v : list pyobj) (s : Stock) : Stock :=
  Build_Stock
    (data s) (name s) (train_samplesX s) (test_samplesX s) (train_samplesY s)
    (test_samplesY s) (scaler s) (normalizedData s) (normDataHistory s)
    (nextDayVals s) (nextDaysVals_test s) (nextDayValsNorm s) (model s)
    (indicators s) (indicatorsNorm s) (indicators_train s) (indicators_test s)
    (indicatorScaler s) (testProp s) (numLag s) (numSeq s) (numEpochs s)
    (numNeurons s) (batchSize s) (nextDayVals_test s) v.

(** ** Methods *)

(** A method runs on the instance and gives back the instance as it left it,
    with the value it returned or the exception that ended it. *)
Definition Method (A : Type) : Type := Stock -> Stock * result A.

Definition ret {A} (a : A) : Method A := fun s => (s, Ok a).

Definition bind {A B} (m : Method A) (k : A -> Method B) : Method B :=
  fun s =>
    match m s with
    | (s1, Ok a) => k a s1
    | (s1, Raise e) => (s1, Raise e)
    end.

(** A computation that does not touch the instance. *)
Definition lift {A} (r : result A) : Method A := fun s => (s, r).

(** [self.f]. *)
Definition getattr {A} (f : Stock -> A) : Method A := fun s => (s, Ok (f s)).

(** [self.f] used in a way the placeholder does not support: [e] is raised
    while the attribute is still [None]. *)
Definition getarray {A} (f : Stock -> option A) (e : exn) : Method A :=
  fun s => (s, match f s with Some a => Ok a | None => Raise e end).

(** [self.f = v], with [f] given by its setter. *)
Definition setattr (f : Stock -> Stock) : Method unit := fun s => (f s, Ok tt).

(** [assert b]. *)
Definition py_assert (b : bool) : Method unit :=
  fun s => (s, if b then Ok tt else Raise AssertionError).

(** [print(o)]. *)
Definition print (o : pyobj) : Method unit :=
  fun s => (set_stdout (stdout s ++ [o]) s, Ok tt).

Declare Scope method_scope.
Delimit Scope method_scope with method.
Notation "x <- m ;; k" := (bind m (fun x => k))
  (at level 61, m at next level, right associativity) : method_scope.
Notation "m ;; k" := (bind m (fun _ => k))
  (at level 61, right associativity) : method_scope.
#[local] Open Scope method_scope.

(** The instance after a method, and how the method ended. *)
Definition after {A} (m : Method A) (s : Stock) : Stock := fst (m s).
Definition outcome {A} (m : Method A) (s : Stock) : result A := snd (m s).

(** [DataFrame.dropna(0)]: the rows without a missing (NaN) field. *)
Definition dropna (t : array2) : array2 :=
  filter (fun r => negb (existsb is_nan r)) t.

(** [Stock(stockName, filePath)], given the table that [pd.read_csv] parsed
    from the file (one row per date, one column per numeric field). *)
Definition Stock_init (stockName : string) (table : array2) : Stock := {|
  data := dropna table;
  name := stockName;
  train_samplesX := None;
  test_samplesX := None;
  train_samplesY := None;
  test_samplesY := None;
  scaler := MinMaxScaler_class;
  normalizedData := None;
  normDataHistory := None;
  nextDayVals := None;
  nextDaysVals_test := None;
  nextDayValsNorm := None;
  model := Model_empty;
  indicators := None;
  indicatorsNorm := None;
  indicators_train := None;
  indicators_test := None;
  indicatorScaler := MinMaxScaler_class;
  testProp := 0.2%float;
  numLag := 1;
  numSeq := 1;
  numEpochs := 1;
  numNeurons := 1;
  batchSize := 32;
  nextDayVals_test := None;
  stdout := []
|}.

(** [X[i : i + W] for i in range(len(X) - W)]. *)
Definition windows (W : Z) (X : array2) : list array2 :=
  map (fun i => slice (Some i) (Some (i + W)) X) (py_range (len X - W)).

(** [X[:, 0][i + W] for i in range(len(X) - W)]. *)
Definition next_values (W : Z) (X : array2) : result array1 :=
  mapM (fun i =>
          match np_column 0 X with
          | Raise e => Raise e
          | Ok c => py_index c (i + W)
          end)
       (py_range (len X - W)).

(** [prepare_samples]: scales the whole data frame to (0, 1), cuts the scaled
    rows into windows of [numSeq] rows, records the first column of the row
    after each window (scaled and in original units), and fits the target
    scaler on the original-unit values. The one-dimensional arrays are stored
    after [np.expand_dims]. *)
Definition prepare_samples : Method unit :=
  setattr (set_scaler MinMaxScaler_new) ;;
  df <- getattr data ;;
  X <- lift (as_2d df) ;;
  sc <- lift (MinMaxScaler_fit X) ;;
  setattr (set_scaler sc) ;;
  Xn <- lift (MinMaxScaler_transform sc X) ;;
  setattr (set_normalizedData (Some Xn)) ;;
  W <- getattr numSeq ;;
  h <- lift (np_array3 (windows W Xn)) ;;
  setattr (set_normDataHistory (Some h)) ;;
  yn <- lift (next_values W Xn) ;;
  setattr (set_nextDayValsNorm (Some (expand_dims yn))) ;;
  y <- lift (next_values W X) ;;
  setattr (set_nextDayVals (Some (expand_dims y))) ;;
  yNormalizer <- lift (MinMaxScaler_fit (expand_dims y)) ;;
  setattr (set_scaler yNormalizer) ;;
  py_assert (len h =? len (expand_dims yn)).

(** The indicator of one window: [np.array([np.mean(day[:, 4])])]. *)
Definition indicator (day : array2) : result array1 :=
  match np_column 4 day with
  | Raise e => Raise e
  | Ok c => Ok [np_mean c]
  end.

(** [prepare_indicators]: one indicator per window of [normDataHistory], then a
    second scaler fitted on, and applied to, all the indicators. *)
Definition prepare_indicators : Method unit :=
  h <- getarray normDataHistory TypeError ;;
  inds <- lift (mapM indicator h) ;;
  setattr (set_indicators (Some inds)) ;;
  setattr (set_indicatorScaler MinMaxScaler_new) ;;
  sc <- lift (MinMaxScaler_fit inds) ;;
  setattr (set_indicatorScaler sc) ;;
  indsNorm <- lift (MinMaxScaler_transform sc inds) ;;
  setattr (set_indicatorsNorm (Some indsNorm)).

(** [n - int(n * testProp)]. *)
Definition split_index (n : Z) (p : float) : result Z :=
  match py_int (float_of_int n * p)%float with
  | Raise e => Raise e
  | Ok k => Ok (n - k)
  end.

(** [split_data]: cuts the windows and their targets at the split index. *)
Definition split_data : Method unit :=
  h <- getarray normDataHistory AttributeError ;;
  p <- getattr testProp ;;
  split <- lift (split_index (len h) p) ;;
  setattr (set_train_samplesX (Some (slice None (Some split) h))) ;;
  setattr (set_test_samplesX (Some (slice (Some split) None h))) ;;
  yn <- getarray nextDayValsNorm TypeError ;;
  setattr (set_train_samplesY (Some (slice None (Some split) yn))) ;;
  setattr (set_test_samplesY (Some (slice (Some split) None yn))) ;;
  y <- getarray nextDayVals TypeError ;;
  setattr (set_nextDayVals_test (Some (slice (Some split) None y))).

(** [split_indicator_data]: cuts the scaled indicators at their split index. *)
Definition split_indicator_data : Method unit :=
  i <- getarray indicatorsNorm AttributeError ;;
  p <- getattr testProp ;;
  split <- lift (split_index (len i) p) ;;
  setattr (set_indicators_train (Some (slice None (Some split) i))) ;;
  setattr (set_indicators_test (Some (slice (Some split) None i))).

(** [set_globals]: stores the five parameters as they are given. *)
Definition set_globals (testProp' : float) (batchSize' numSeq' numNeurons' numEpochs' : Z)
  : Method unit :=
  setattr (set_testProp testProp') ;;
  setattr (set_batchSize batchSize') ;;
  setattr (set_numSeq numSeq') ;;
  setattr (set_numNeurons numNeurons') ;;
  setattr (set_numEpochs numEpochs').

(** ** Training and evaluation, over the external engine *)

Section Engine.

(** Keras and the metrics library are collaborators outside the notebook.
    Each call either returns or raises; nothing else is assumed of them.
    Predictions are taken as the binary64 values of what the network returns. *)
Variable keras_input : Z -> Z -> result unit.
Variable keras_build : architecture -> result unit.
Variable keras_fit : architecture -> training -> result unit.
Variable keras_predict :
  keras_model -> option array3 -> option array2 -> result array2.
Variable r2_score : array2 -> array2 -> result float.

(** [self.indicators.shape[1]]: the placeholder has no [shape]; the
    one-dimensional array built from no indicators has no second axis. *)
Definition indicator_columns : Method Z :=
  inds <- getarray indicators AttributeError ;;
  lift (match inds with
        | [] => Raise IndexError
        | r :: _ => Ok (len r)
        end).

(** [fit_LSTM]: assembles and compiles the two-branch network, stores it in
    [model], and fits it on the train partition. *)
Definition fit_LSTM : Method unit :=
  W <- getattr numSeq ;;
  X <- getattr data ;;
  F <- lift (shape_1 X) ;;
  lift (keras_input W F) ;;
  k <- indicator_columns ;;
  n <- getattr numNeurons ;;
  let a := {| input_steps := W; input_features := F;
              indicator_features := k; lstm_units := n |} in
  lift (keras_build a) ;;
  setattr (set_model (Model_compiled a)) ;;
  tx <- getattr train_samplesX ;;
  ti <- getattr indicators_train ;;
  ty <- getattr train_samplesY ;;
  b <- getattr batchSize ;;
  e <- getattr numEpochs ;;
  let t := {| train_x := tx; train_ind := ti; train_y := ty;
              fit_batch_size := b; fit_epochs := e |} in
  lift (keras_fit a t) ;;
  setattr (set_model (Model_fitted a t)).

(** [MSE / (np.max(t) - np.min(t)) * 100]. *)
Definition scale_mse (MSE : float) (t : array2) : result float :=
  match np_max (concat t) with
  | Raise e => Raise e
  | Ok hi =>
      match np_min (concat t) with
      | Raise e => Raise e
      | Ok lo => Ok (MSE / (hi - lo) * float_of_int 100)%float
      end
  end.

(** [evaluate_forecasts]: predicts the test partition, maps the predictions
    back to original units with [scaler], computes the mean squared error
    against [nextDayVals_test], and goes on to print it, to compute and print
    the coefficient of determination, and to save the plot. Drawing the plot
    has no effect on the instance. *)
Definition evaluate_forecasts : Method unit :=
  mdl <- getattr model ;;
  tx <- getattr test_samplesX ;;
  ti <- getattr indicators_test ;;
  predicted <- lift (keras_predict mdl tx ti) ;;
  sc <- getattr scaler ;;
  predictedPrices <- lift (MinMaxScaler_inverse_transform sc predicted) ;;
  t <- getarray nextDayVals_test AttributeError ;;
  d <- lift (np_sub2 t predictedPrices) ;;
  let MSE := mean_square d in
  MSE_scaled <- lift (scale_mse MSE t) ;;
  line1 <- lift (py_add (PyStr "MSE Score: ") (PyFloat MSE_scaled)) ;;
  print line1 ;;
  rSquared <- lift (r2_score t predictedPrices) ;;
  line2 <- lift (py_add (PyStr "R^2 Score: ") (PyFloat rSquared)) ;;
  print line2 ;;
  nm <- getattr name ;;
  e <- getattr numEpochs ;;
  f1 <- lift (py_add (PyStr nm) (PyStr "forecastplot")) ;;
  f2 <- lift (py_add f1 (PyInt e)) ;;
  _ <- lift (py_add f2 (PyStr ".png")) ;;
  ret tt.

End Engine.

(** ** The lifecycle of the notebook's cells, and sample instances *)

(** The four preparation calls of every cell, in the cell's order. *)
Definition prepare : Method unit :=
  prepare_samples ;; prepare_indicators ;; split_data ;; split_indicator_data.

(** One dated record: open, high, low, close, adjusted close, volume. *)
Definition price_row (z : Z) : array1 :=
  [float_of_int (100 + z); float_of_int (101 + z); float_of_int (99 + z);
   float_of_int (100 + z); float_of_int (100 + z); float_of_int (1000 + 10 * z)].

(** A table of [n] records whose prices rise by one per day from 100. *)
Definition linear_table (n : nat) : array2 :=
  map (fun i => price_row (Z.of_nat i)) (seq 0 n).

(** The array held by an attribute, empty for a placeholder. *)
Definition held {A} (o : option (list A)) : list A :=
  match o with
  | Some l => l
  | None => []
  end.

(** A DataFrame that the scaler accepts: at least one row, at least two
    columns, every row as wide as the first, and no infinite entry. *)
Definition is_frame (X : array2) : bool :=
  negb (has_inf X) && (0 <? length X)%nat && (1 <? width X)%nat
  && forallb (fun r => (length r =? width X)%nat) X.

(** Two arrays of the same shape. *)
Definition same_shape (x y : array2) : Prop :=
  Forall2 (fun a b => length a = length b) x y.

(** A stand-in engine: building and fitting always succeed, and a fitted
    model predicts, for every window, the first column of the window's last
    row. *)
Definition naive_input (_ _ : Z) : result unit := Ok tt.
Definition naive_build (_ : architecture) : result unit := Ok tt.
Definition naive_fit (_ : architecture) (_ : training) : result unit := Ok tt.
Definition naive_predict (m : keras_model) (x : option array3) (_ : option array2)
  : result array2 :=
  match m, x with
  | Model_fitted _ _, Some ws => Ok (map (fun w => [nth 0 (last w []) nan]) ws)
  | _, _ => Raise ValueError
  end.
Definition naive_r2 (t p : array2) : result float :=
  match np_sub2 t p with
  | Raise e => Raise e
  | Ok d =>
      let m := np_mean (concat t) in
      let tot := np_sum (map (fun v => ((v - m) * (v - m))%float) (concat t)) in
      let res := np_sum (map (fun v => (v * v)%float) (concat d)) in
      Ok (1 - res / tot)%float
  end.

Definition naive_fit_LSTM : Method unit :=
  fit_LSTM naive_input naive_build naive_fit.
Definition naive_evaluate_forecasts : Method unit :=
  evaluate_forecasts naive_predict naive_r2.

(** The scenario of the specification: 20 records, windows of 5, a fifth of
    the samples held out. *)
Definition scenario : Stock :=
  after (set_globals 0.2 32 5 50 5) (Stock_init "LIN" (linear_table 20)).

(** Ten samples (eleven records, windows of one) under test proportion [p];
    the notebook's own cells use 0.15. *)
Definition ten_samples_with (p : float) : Stock :=
  after (set_globals p 32 1 50 5 ;; prepare_samples ;; prepare_indicators)
        (Stock_init "TEN" (linear_table 11)).

(** Three records and windows of five. *)
Definition too_short : Stock :=
  after (set_globals 0.2 32 5 50 5) (Stock_init "SHORT" (linear_table 3)).

(** ** The specification's wording, for comparison *)

(** The train size as the specification words it: [floor(M * (1 - p))]. *)
Definition spec_train_size (M : Z) (p : float) : result Z :=
  py_floor (float_of_int M * (1 - p))%float.

(** The list a computation returned, empty if it raised. *)
Definition returned {A} (r : result (list A)) : list A :=
  match r with
  | Ok l => l
  | Raise _ => []
  end.

(** The scenario after preparation and training with the stand-in engine. *)
Definition trained_scenario : Stock :=
  after (prepare ;; naive_fit_LSTM) scenario.

(** The scenario with its last record replaced by [price_row z]. *)
Definition scenario_ending_in (z : Z) : Stock :=
  after (set_globals 0.2 32 5 50 5)
        (Stock_init "LIN" (linear_table 19 ++ [price_row z])).

(** The first column of the second day of the first train sample. *)
Definition second_day_of_first_sample (s : Stock) : float :=
  nth 0 (nth 1 (nth 0 (held (train_samplesX s)) []) []) nan.

(** ** The instance after each completed method *)

(** The instance that [prepare_samples] leaves when it completes. *)
Definition samples_at (sc ysc : MinMaxScaler) (Xn : array2) (h : array3)
    (yn y : array1) (s : Stock) : Stock :=
  set_scaler ysc
    (set_nextDayVals (Some (expand_dims y))
       (set_nextDayValsNorm (Some (expand_dims yn))
          (set_normDataHistory (Some h)
             (set_normalizedData (Some Xn)
                (set_scaler sc (set_scaler MinMaxScaler_new s)))))).

(** The instance that [prepare_indicators] leaves when it completes. *)
Definition indicators_at (isc : MinMaxScaler) (inds indsNorm : array2) (s : Stock)
  : Stock :=
  set_indicatorsNorm (Some indsNorm)
    (set_indicatorScaler isc
       (set_indicatorScaler MinMaxScaler_new (set_indicators (Some inds) s))).

(** The instance that [split_data] leaves when it completes. *)
Definition split_at (split : Z) (h : array3) (yn y : array2) (s : Stock) : Stock :=
  set_nextDayVals_test (Some (slice (Some split) None y))
    (set_test_samplesY (Some (slice (Some split) None yn))
       (set_train_samplesY (Some (slice None (Some split) yn))
          (set_test_samplesX (Some (slice (Some split) None h))
             (set_train_samplesX (Some (slice None (Some split) h)) s)))).

(** The instance that [split_indicator_data] leaves when it completes. *)
Definition indicators_split_at (split : Z) (i : array2) (s : Stock) : Stock :=
  set_indicators_test (Some (slice (Some split) None i))
    (set_indicators_train (Some (slice None (Some split) i)) s).

(** ** Proof automation *)

Ltac run_method :=
  unfold bind, getarray, getattr, setattr, lift, ret, py_assert; cbn.

(** Closes a goal whose hypotheses describe one run in two incompatible ways. *)
Ltac same_run :=
  intros;
  repeat match goal with
         | H : Ok _ = Ok _ |- _ => inversion H; subst; clear H
         | H : Some _ = Some _ |- _ => inversion H; subst; clear H
         end;
  congruence.

(** Replays, in a second run of a method, the steps whose results the first
    run has fixed. *)
Ltac rerun :=
  cbn;
  repeat match goal with
         | H : ?c = _ |- context [?c] => rewrite H; cbn
         end;
  try reflexivity.

(** Linear arithmetic over array lengths. *)
Ltac len_lia := unfold len, array3, array2, array1 in *; lia.

(* Case analysis on the scrutinees of a goal, innermost first. *)
Ltac walk :=
  repeat match goal with
         | |- context [match ?x with _ => _ end] =>
             lazymatch x with
             | context [match _ with _ => _ end] => fail
             | _ => destruct x; cbn
             end
         end.

(** * The rest of the forecasting notebook's file: meters, datasets, labels *)

(** The exceptions of the classification notebook: those above, and
    [ZeroDivisionError]. *)
Inductive py_exn : Type :=
  | Builtin (e : exn)
  | ZeroDivisionError.

(** ** [AverageMeter] *)

Module AverageMeter.

(** A Python number. The meter holds the [int] 0 after [reset] and floats
    once it has been updated with a float. *)
Inductive number : Type :=
  | Int (z : Z)
  | Float (x : float).

Record t : Type := {
  val : number;
  avg : number;
  sum : number;
  count : Z
}.

(** [reset]: all four attributes back to 0. *)
Definition reset (_ : t) : t :=
  {| val := Int 0; avg := Int 0; sum := Int 0; count := 0 |}.

(** [AverageMeter()]: the constructor only calls [reset]. *)
Definition init : t :=
  {| val := Int 0; avg := Int 0; sum := Int 0; count := 0 |}.

(** The conversion of an [int] operand in float arithmetic: [OverflowError]
    ([None]) when the integer is too large for a float. *)
Definition to_float (z : Z) : option float :=
  let x := float_of_int z in
  if is_infinity x then None else Some x.

Definition number_to_float (a : number) : option float :=
  match a with
  | Int z => to_float z
  | Float x => Some x
  end.

(** [update(val, n)] with a float [val] (the notebook passes [loss.item()])
    and an integer [n]:
    [self.val = val; self.sum += val * n; self.count += n;
     self.avg = self.sum / self.count].
    The attributes assigned before an exception keep their new values. *)
Definition update (v : float) (n : Z) (m : t) : t * option py_exn :=
  let m1 := {| val := Float v; avg := avg m; sum := sum m; count := count m |} in
  match to_float n with
  | None => (m1, Some (Builtin OverflowError))
  | Some fn =>
      match number_to_float (sum m) with
      | None => (m1, Some (Builtin OverflowError))
      | Some s0 =>
          let s1 := (s0 + v * fn)%float in
          let c1 := count m + n in
          let m3 := {| val := Float v; avg := avg m; sum := Float s1; count := c1 |} in
          match to_float c1 with
          | None => (m3, Some (Builtin OverflowError))
          | Some fc =>
              if c1 =? 0 then (m3, Some ZeroDivisionError)
              else ({| val := Float v; avg := Float (s1 / fc);
                       sum := Float s1; count := c1 |}, None)
          end
      end
  end.

(** A run of [update] calls, one per [(val, n)], ended by the first
    exception. *)
Fixpoint updates (calls : list (float * Z)) (m : t) : t * option py_exn :=
  match calls with
  | [] => (m, None)
  | (v, n) :: rest =>
      match update v n m with
      | (m', None) => updates rest m'
      | (m', Some e) => (m', Some e)
      end
  end.

End AverageMeter.

(** ** The classification notebook's dataset and labels *)

Module Tumor.

(** [Dataset]: the samples (one row of features each) and their encoded
    labels, with the two class counts it is given. *)
Record Dataset : Type := {
  input_num_classes : Z;
  output_num_classes : Z;
  data_input : array2;
  data_output : list Z
}.

(** [Dataset(data, input_num_classes, output_num_classes)] on the pair
    [data]; the constructor asserts that there are as many labels as
    samples. *)
Definition Dataset_init (data : array2 * list Z) (inc onc : Z) : result Dataset :=
  let d := {| input_num_classes := inc; output_num_classes := onc;
              data_input := fst data; data_output := snd data |} in
  if len (data_input d) =? len (data_output d) then Ok d
  else Raise AssertionError.

(** [__len__]. *)
Definition Dataset_len (d : Dataset) : Z := len (data_input d).

(** [__getitem__(index)]: the sample and the label at [index], each turned
    into a tensor of the same values. *)
Definition Dataset_getitem (d : Dataset) (index : Z) : result (array1 * Z) :=
  match py_index (data_input d) index with
  | Raise e => Raise e
  | Ok x =>
      match py_index (data_output d) index with
      | Raise e => Raise e
      | Ok y => Ok (x, y)
      end
  end.

(** [sorted] on strings, by insertion; strings compare by code point, which
    is the byte order of their encoding. *)
Fixpoint insert (x : string) (l : list string) : list string :=
  match l with
  | [] => [x]
  | y :: l' => if String.leb x y then x :: l else y :: insert x l'
  end.

Definition py_sorted (l : list string) : list string := fold_right insert [] l.

(** [set(l)], listed in some order: here by last occurrence. *)
Definition py_set (l : list string) : list string := nodup string_dec l.

(** [l.count(x)]. *)
Definition py_count (l : list string) (x : string) : Z :=
  Z.of_nat (count_occ string_dec l x).

(** PyTorch's [torch.float]: binary32. *)
Definition float32 : Type := spec_float.
Definition float32_of_int (z : Z) : float32 := binary_normalize 24 128 z 0 false.
Definition float32_div (x y : float32) : float32 := SFdiv 24 128 x y.

(** The label file as it is read: one [(sample, label)] row per sample, the
    labels as the strings that [astype(str)] makes of them. *)
Definition label_file : Type := list (string * string).

(** [label_file_df.iloc[:,-1].astype(str).values.tolist()]. *)
Definition labels_all (label_file_df : label_file) : list string :=
  map snd label_file_df.

(** [labels_and_weights]: the sorted distinct labels, and for each the
    inverse of the number of samples that carry it. *)
Definition labels_and_weights (label_file_df : label_file)
  : list string * list float32 :=
  let all := labels_all label_file_df in
  let labels_unique := py_set all in
  let labels := py_sorted labels_unique in
  let labels_count := map (py_count all) labels in
  let weights := map (fun c => float32_div (float32_of_int 1) (float32_of_int c))
                     labels_count in
  (labels, weights).

(** A dictionary from strings to integers, and [d[k] = v]. *)
Definition dict : Type := string -> option Z.
Definition dict_empty : dict := fun _ => None.
Definition dict_set (d : dict) (k : string) (v : Z) : dict :=
  fun k' => if String.eqb k' k then Some v else d k'.

(** [enumerate(l)]. *)
Definition enumerate (l : list string) : list (Z * string) :=
  combine (map Z.of_nat (seq 0 (length l))) l.

(** The dictionary of labels that [split_data] builds first:
    [{k: v for v, k in enumerate(sorted(set(labels)))}]. *)
Definition labels_dict (label_file_df : label_file) : dict :=
  let labels := py_sorted (py_set (labels_all label_file_df)) in
  fold_left (fun d vk => dict_set d (snd vk) (fst vk)) (enumerate labels) dict_empty.

End Tumor.

(** ** What a method leaves alone *)

(** The frame, the name and the five parameters of [s'] are those of [s]. *)
Definition same_configuration (s s' : Stock) : Prop :=
  data s' = data s /\ name s' = name s /\ testProp s' = testProp s /\
  numLag s' = numLag s /\ numSeq s' = numSeq s /\ numEpochs s' = numEpochs s /\
  numNeurons s' = numNeurons s /\ batchSize s' = batchSize s.

(** Every attribute that [set_globals] does not assign is in [s'] as in [s]. *)
Definition same_but_globals (s s' : Stock) : Prop :=
  data s' = data s /\ name s' = name s /\
  train_samplesX s' = train_samplesX s /\ test_samplesX s' = test_samplesX s /\
  train_samplesY s' = train_samplesY s /\ test_samplesY s' = test_samplesY s /\
  scaler s' = scaler s /\ normalizedData s' = normalizedData s /\
  normDataHistory s' = normDataHistory s /\ nextDayVals s' = nextDayVals s /\
  nextDaysVals_test s' = nextDaysVals_test s /\
  nextDayValsNorm s' = nextDayValsNorm s /\ model s' = model s /\
  indicators s' = indicators s /\ indicatorsNorm s' = indicatorsNorm s /\
  indicators_train s' = indicators_train s /\
  indicators_test s' = indicators_test s /\
  indicatorScaler s' = indicatorScaler s /\ numLag s' = numLag s /\
  nextDayVals_test s' = nextDayVals_test s /\ stdout s' = stdout s.

(** An engine whose fit always fails. *)
Definition refusing_fit (_ : architecture) (_ : training) : result unit :=
  Raise ValueError.

(** ** Further sample instances *)

(** A table of [n] records with three fields only. *)
Definition narrow_table (n : nat) : array2 :=
  map (fun i => [float_of_int (100 + Z.of_nat i); float_of_int (101 + Z.of_nat i);
                 float_of_int (1000 + Z.of_nat i)]) (seq 0 n).

Definition narrow_stock : Stock :=
  after (set_globals 0.2 32 2 50 5) (Stock_init "NARROW" (narrow_table 6)).

(** A test proportion that is not a number. *)
Definition nan_proportion : Stock :=
  after (set_globals nan 32 1 50 5) (ten_samples_with 0.15).

(** A table with a single data column, which [read_csv] holds as a Series. *)
Definition single_column (n : nat) : array2 :=
  map (fun i => [float_of_int (100 + Z.of_nat i)]) (seq 0 n).

(** Five records of one column each, windows of one. *)
Definition series_stock : Stock :=
  after (set_globals 0.2 32 1 50 5) (Stock_init "SERIES" (single_column 5)).

(** Five records, the last with an infinite first field, windows of one. *)
Definition infinite_entry : Stock :=
  after (set_globals 0.2 32 1 50 5)
        (Stock_init "INF"
           (linear_table 4
            ++ [[infinity; float_of_int 105; float_of_int 103; float_of_int 104;
                 float_of_int 104; float_of_int 1040]])).

(** Five records and a window length of -1. *)
Definition negative_window : Stock :=
  after (set_globals 0.2 32 (-1) 50 5) (Stock_init "LIN" (linear_table 5)).

(** Five records and windows of one: four samples, of which a fifth rounds
    down to none for the test partition. *)
Definition five_records : Stock :=
  after (set_globals 0.2 32 1 50 5) (Stock_init "LIN" (linear_table 5)).

Definition trained_five_records : Stock :=
  after (prepare ;; naive_fit_LSTM) five_records.

(** A label file of five samples in three classes. *)
Definition five_labels : Tumor.label_file :=
  [("s1", "LUAD"); ("s2", "GTEX"); ("s3", "LUSC"); ("s4", "LUAD"); ("s5", "GTEX")]%string.

(** * Properties *)

(** ** Python semantics on small inputs *)

Example py_int_truncates :
  py_int 1.5 = Ok 1 /\ py_int (-1.5) = Ok (-1) /\ py_int 3 = Ok 3 /\
  py_int nan = Raise ValueError /\ py_int infinity = Raise OverflowError.
Proof. repeat split; vm_compute; reflexivity. Qed.

Example py_int_of_products :
  py_int (float_of_int 15 * 0.2) = Ok 3 /\ py_int (float_of_int 10 * 0.15) = Ok 1.
Proof. repeat split; vm_compute; reflexivity. Qed.

Example slice_examples :
  slice None (Some 2) [1; 2; 3; 4; 5] = [1; 2] /\
  slice (Some 2) None [1; 2; 3; 4; 5] = [3; 4; 5] /\
  slice None (Some (-2)) [1; 2; 3; 4; 5] = [1; 2; 3] /\
  slice (Some (-2)) None [1; 2; 3; 4; 5] = [4; 5] /\
  slice None (Some 9) [1; 2; 3; 4; 5] = [1; 2; 3; 4; 5] /\
  slice (Some 9) None [1; 2; 3; 4; 5] = [] /\
  slice (Some 1) (Some 3) [1; 2; 3; 4; 5] = [2; 3] /\
  slice (Some 3) (Some 1) [1; 2; 3; 4; 5] = [].
Proof. repeat split; reflexivity. Qed.

Example py_index_examples :
  py_index [1; 2; 3] 0 = Ok 1 /\ py_index [1; 2; 3] (-1) = Ok 3 /\
  py_index [1; 2; 3] 3 = Raise IndexError /\ py_index [1; 2; 3] (-4) = Raise IndexError.
Proof. repeat split; reflexivity. Qed.

Example py_add_examples :
  py_add (PyStr "a") (PyStr "b") = Ok (PyStr "ab") /\
  py_add (PyStr "MSE Score: ") (PyFloat 1.5) = Raise TypeError /\
  py_add (PyStr "forecastplot") (PyInt 5) = Raise TypeError.
Proof. repeat split; reflexivity. Qed.

(** The scenario of the specification: 15 samples, 12 for training and 3 for
    testing. *)
Example scenario_sizes :
  outcome prepare scenario = Ok tt /\
  len (held (normDataHistory (after prepare scenario))) = 15 /\
  len (held (train_samplesX (after prepare scenario))) = 12 /\
  len (held (test_samplesX (after prepare scenario))) = 3.
Proof. repeat split; vm_compute; reflexivity. Qed.

(** ** Summation *)

Lemma pairwise_cut (n : nat) :
  (128 < n -> 0 < n / 2 - (n / 2) mod 8 < n)%nat.
Proof.
  intros Hn.
  pose proof (Nat.mod_upper_bound (n / 2) 8 ltac:(lia)) as Hm.
  pose proof (Nat.Div0.mod_le (n / 2) 8) as Hle.
  assert (64 <= n / 2)%nat by (apply (Nat.div_le_lower_bound n 2 64); lia).
  assert (n / 2 < n)%nat by (apply Nat.div_lt; lia).
  lia.
Qed.

(** The length of a run is fuel enough: more fuel gives the same sum. *)
Lemma pairwise_sum_fuel (f1 f2 : nat) (a : array1) :
  (length a <= f1)%nat -> (length a <= f2)%nat ->
  pairwise_sum f1 a = pairwise_sum f2 a.
Proof.
  revert f2 a. induction f1 as [|f1 IH]; intros f2 a H1 H2.
  - destruct f2 as [|f2]; cbn [pairwise_sum]; [reflexivity|].
    destruct (128 <? length a)%nat eqn:E; [|reflexivity].
    apply Nat.ltb_lt in E. lia.
  - destruct f2 as [|f2]; cbn [pairwise_sum];
      destruct (128 <? length a)%nat eqn:E; try reflexivity;
      apply Nat.ltb_lt in E; [lia|].
    pose proof (pairwise_cut _ E) as Hc.
    f_equal; apply IH; rewrite ?length_firstn, ?length_skipn; lia.
Qed.

(** A run of up to 128 elements is summed as one block. *)
Lemma np_sum_block (a : array1) :
  (length a <= 128)%nat -> np_sum a = (0 + pairwise_block a)%float.
Proof.
  intros H. unfold np_sum. destruct (length a) as [|n] eqn:E; [reflexivity|].
  cbn [pairwise_sum]. rewrite E.
  destruct (128 <? S n)%nat eqn:E'; [|reflexivity].
  apply Nat.ltb_lt in E'. lia.
Qed.

(** Fewer than 8 elements are added from left to right; 8 elements are not. *)
Lemma np_sum_examples :
  np_sum [] = 0%float /\
  np_sum [0.1; 0.2; 0.3]%float = (0.1 + 0.2 + 0.3)%float /\
  np_sum [0.1; 0.2; 0.3; 0.4; 0.5; 0.6; 0.7; 0.8]%float
  = (((0.1 + 0.2) + (0.3 + 0.4)) + ((0.5 + 0.6) + (0.7 + 0.8)))%float /\
  (np_sum [0.1; 0.2; 0.3; 0.4; 0.5; 0.6; 0.7; 0.8]
   =? fold_left PrimFloat.add [0.1; 0.2; 0.3; 0.4; 0.5; 0.6; 0.7; 0.8] 0)%float
  = false.
Proof. repeat split; vm_compute; reflexivity. Qed.

(** ** Results and comprehensions *)

Lemma mapM_length {A B} (f : A -> result B) (l : list A) (r : list B) :
  mapM f l = Ok r -> length r = length l.
Proof.
  revert r. induction l as [|a l IH]; intros r H; simpl in H.
  - now inversion H.
  - destruct (f a); [|discriminate].
    destruct (mapM f l); [|discriminate].
    inversion H; subst. simpl. f_equal. now apply IH.
Qed.

Lemma mapM_total {A B} (f : A -> result B) (g : A -> B) (l : list A) :
  (forall a, In a l -> f a = Ok (g a)) -> mapM f l = Ok (map g l).
Proof.
  induction l as [|a l IH]; intros H; simpl; [reflexivity|].
  rewrite (H a (or_introl eq_refl)), IH; [reflexivity|].
  intros b Hb. apply H. now right.
Qed.

Lemma mapM_raises {A B} (f : A -> result B) (l : list A) (e e0 : exn) :
  (forall a e', f a = Raise e' -> e' = e0) -> mapM f l = Raise e -> e = e0.
Proof.
  intros Hf. induction l as [|a l IH]; simpl; [discriminate|].
  destruct (f a) eqn:Ha.
  - destruct (mapM f l); [discriminate|].
    intros H. inversion H; subst. now apply IH.
  - intros H. inversion H; subst. eapply Hf; eassumption.
Qed.

Lemma len_nonneg {A} (l : list A) : 0 <= len l.
Proof. unfold len. lia. Qed.

(** ** Slices *)

Lemma clamp_index_range (n k : Z) : 0 <= n -> 0 <= clamp_index n k <= n.
Proof. unfold clamp_index. destruct (k <? 0) eqn:E; lia. Qed.

Lemma clamp_index_inside (n k : Z) : 0 <= k <= n -> clamp_index n k = k.
Proof. unfold clamp_index. destruct (k <? 0) eqn:E; lia. Qed.

Lemma slice_prefix {A} (l : list A) (k : Z) :
  slice None (Some k) l = firstn (Z.to_nat (clamp_index (len l) k)) l.
Proof. unfold slice. simpl. now rewrite Z.sub_0_r. Qed.

Lemma slice_suffix {A} (l : list A) (k : Z) :
  slice (Some k) None l = skipn (Z.to_nat (clamp_index (len l) k)) l.
Proof.
  unfold slice. apply firstn_all2. rewrite length_skipn.
  pose proof (clamp_index_range (len l) k (len_nonneg l)). unfold len in *. lia.
Qed.

(** A prefix slice followed by the suffix slice at the same bound is the
    whole sequence, whatever the bound. *)
Lemma slice_prefix_suffix {A} (l : list A) (k : Z) :
  slice None (Some k) l ++ slice (Some k) None l = l.
Proof. rewrite slice_prefix, slice_suffix. apply firstn_skipn. Qed.

Lemma len_slice_prefix {A} (l : list A) (k : Z) :
  len (slice None (Some k) l) = clamp_index (len l) k.
Proof.
  rewrite slice_prefix. unfold len at 1. rewrite length_firstn.
  pose proof (clamp_index_range (len l) k (len_nonneg l)). unfold len in *. lia.
Qed.

Lemma len_slice_suffix {A} (l : list A) (k : Z) :
  len (slice (Some k) None l) = len l - clamp_index (len l) k.
Proof.
  rewrite slice_suffix. unfold len at 1. rewrite length_skipn.
  pose proof (clamp_index_range (len l) k (len_nonneg l)). unfold len in *. lia.
Qed.

(** A window that fits: [l[i : i + W]] is the [W] entries from index [i]. *)
Lemma slice_window {A} (l : list A) (i W : Z) :
  0 <= i -> 0 <= W -> i + W <= len l ->
  slice (Some i) (Some (i + W)) l = firstn (Z.to_nat W) (skipn (Z.to_nat i) l).
Proof.
  intros Hi HW Hl. unfold slice.
  rewrite !clamp_index_inside by lia. do 2 f_equal. lia.
Qed.

Lemma length_slice_window {A} (l : list A) (i W : Z) :
  0 <= i -> 0 <= W -> i + W <= len l ->
  length (slice (Some i) (Some (i + W)) l) = Z.to_nat W.
Proof.
  intros Hi HW Hl. rewrite slice_window by assumption.
  rewrite length_firstn, length_skipn. unfold len in Hl. lia.
Qed.

Lemma nth_error_slice_window {A} (l : list A) (i W : Z) (j : nat) :
  0 <= i -> 0 <= W -> i + W <= len l -> Z.of_nat j < W ->
  nth_error (slice (Some i) (Some (i + W)) l) j = nth_error l (Z.to_nat i + j).
Proof.
  intros Hi HW Hl Hj. rewrite slice_window by assumption.
  rewrite nth_error_firstn.
  destruct (Nat.ltb_spec j (Z.to_nat W)); [|lia].
  apply nth_error_skipn.
Qed.

(** ** The split *)

Lemma split_data_run (s : Stock) (h : array3) (yn y : array2) (k : Z) :
  normDataHistory s = Some h ->
  nextDayValsNorm s = Some yn ->
  nextDayVals s = Some y ->
  py_int (float_of_int (len h) * testProp s)%float = Ok k ->
  split_data s = (split_at (len h - k) h yn y s, Ok tt).
Proof.
  intros Hh Hyn Hy Hk. unfold split_data, split_index. run_method.
  rewrite Hh. cbn. rewrite Hk. cbn. rewrite Hyn. cbn. rewrite Hy. cbn.
  reflexivity.
Qed.

Lemma split_at_partitions (split : Z) (h : array3) (yn y : array2) (s : Stock) :
  let s' := split_at split h yn y s in
  train_samplesX s' = Some (slice None (Some split) h) /\
  test_samplesX s' = Some (slice (Some split) None h) /\
  train_samplesY s' = Some (slice None (Some split) yn) /\
  test_samplesY s' = Some (slice (Some split) None yn) /\
  nextDayVals_test s' = Some (slice (Some split) None y).
Proof. cbn. repeat split; reflexivity. Qed.

(** C1, as the code has it: on [M] prepared samples with [k = int(M * testProp)]
    and [0 <= k <= M], [split_data] completes; the train partition is the
    first [M - k] samples and the test partition the last [k], in their
    original order, so that train followed by test is the sample sequence
    again; the targets are cut at the same index. *)
Theorem split_data_partition (s : Stock) (h : array3) (yn y : array2) (k : Z) :
  normDataHistory s = Some h ->
  nextDayValsNorm s = Some yn ->
  nextDayVals s = Some y ->
  py_int (float_of_int (len h) * testProp s)%float = Ok k ->
  0 <= k <= len h ->
  let s' := after split_data s in
  outcome split_data s = Ok tt /\
  train_samplesX s' = Some (firstn (Z.to_nat (len h - k)) h) /\
  test_samplesX s' = Some (skipn (Z.to_nat (len h - k)) h) /\
  len (held (train_samplesX s')) = len h - k /\
  len (held (test_samplesX s')) = k /\
  held (train_samplesX s') ++ held (test_samplesX s') = h /\
  train_samplesY s' = Some (firstn (Z.to_nat (len h - k)) yn) /\
  test_samplesY s' = Some (skipn (Z.to_nat (len h - k)) yn) /\
  nextDayVals_test s' = Some (skipn (Z.to_nat (len h - k)) y).
Proof.
  intros Hh Hyn Hy Hk Hrange s'. subst s'. unfold after, outcome.
  rewrite (split_data_run s h yn y k Hh Hyn Hy Hk).
  destruct (split_at_partitions (len h - k) h yn y s) as (E1 & E2 & E3 & E4 & E5).
  cbn [fst snd]. rewrite E1, E2, E3, E4, E5. cbn [held].
  rewrite len_slice_prefix, len_slice_suffix, slice_prefix_suffix.
  rewrite !slice_prefix, !slice_suffix.
  rewrite (clamp_index_inside (len h) (len h - k)) by lia.
  repeat split; try reflexivity; try lia.
  - unfold clamp_index. destruct (len h - k <? 0) eqn:E; [lia|].
    destruct (Z.min_spec (len h - k) (len yn)) as [[_ ->]|[Hle ->]]; [reflexivity|].
    rewrite !firstn_all2; trivial; unfold len in *; lia.
  - unfold clamp_index. destruct (len h - k <? 0) eqn:E; [lia|].
    destruct (Z.min_spec (len h - k) (len yn)) as [[_ ->]|[Hle ->]]; [reflexivity|].
    rewrite !skipn_all2; trivial; unfold len in *; lia.
  - unfold clamp_index. destruct (len h - k <? 0) eqn:E; [lia|].
    destruct (Z.min_spec (len h - k) (len y)) as [[_ ->]|[Hle ->]]; [reflexivity|].
    rewrite !skipn_all2; trivial; unfold len in *; lia.
Qed.

Lemma split_data_partition_witness :
  outcome split_data (ten_samples_with 0.15) = Ok tt /\
  len (held (train_samplesX (after split_data (ten_samples_with 0.15)))) = 9 /\
  len (held (test_samplesX (after split_data (ten_samples_with 0.15)))) = 1.
Proof.
  pose proof (split_data_partition (ten_samples_with 0.15)
                (held (normDataHistory (ten_samples_with 0.15)))
                (held (nextDayValsNorm (ten_samples_with 0.15)))
                (held (nextDayVals (ten_samples_with 0.15))) 1) as H.
  destruct H as (H1 & _ & _ & H4 & H5 & _).
  - vm_compute. reflexivity.
  - vm_compute. reflexivity.
  - vm_compute. reflexivity.
  - vm_compute. reflexivity.
  - vm_compute. split; discriminate.
  - split; [exact H1|]. split; [exact H4 | exact H5].
Defined.

(** C1, as the specification words it, fails: on 10 samples with test
    proportion 0.15 the train partition holds 9 samples, where
    [floor(10 * (1 - 0.15))] is 8. *)
Lemma split_data_train_size_not_floor :
  len (held (normDataHistory (ten_samples_with 0.15))) = 10 /\
  outcome split_data (ten_samples_with 0.15) = Ok tt /\
  len (held (train_samplesX (after split_data (ten_samples_with 0.15)))) = 9 /\
  spec_train_size 10 0.15 = Ok 8 /\
  Ok (len (held (train_samplesX (after split_data (ten_samples_with 0.15)))))
    <> spec_train_size (len (held (normDataHistory (ten_samples_with 0.15))))
                       (testProp (ten_samples_with 0.15)).
Proof.
  repeat split; try (vm_compute; reflexivity).
  vm_compute. discriminate.
Qed.

Lemma py_int_raises (x : float) (e : exn) :
  py_int x = Raise e -> e = ValueError \/ e = OverflowError.
Proof.
  unfold py_int. destruct (Prim2SF x); intros H; inversion H; auto.
Qed.

(** Whatever the instance, [split_data] raises no [ConfigurationError]. *)
Lemma split_data_never_ConfigurationError (s : Stock) :
  outcome split_data s <> Raise ConfigurationError.
Proof.
  unfold outcome, split_data, split_index. run_method.
  destruct (normDataHistory s) as [h|]; cbn; [|discriminate].
  destruct (py_int (float_of_int (len h) * testProp s)) as [k|e] eqn:Hk; cbn.
  - destruct (nextDayValsNorm s); cbn; [|discriminate].
    destruct (nextDayVals s); cbn; discriminate.
  - destruct (py_int_raises _ _ Hk); subst; discriminate.
Qed.

Lemma set_globals_run (p : float) (b w n e : Z) (s : Stock) :
  set_globals p b w n e s =
  (set_numEpochs e (set_numNeurons n (set_numSeq w (set_batchSize b (set_testProp p s)))),
   Ok tt).
Proof. reflexivity. Qed.

(** C5, as the code has it: the test proportion is stored and used without
    any validation. Whenever [int(M * p)] exists (the product is finite),
    inside or outside (0, 1), [split_data] completes: the partitions are the
    Python slices before and from [M - int(M * p)], either of which may be
    empty, and no [ConfigurationError] is ever raised. *)
Theorem split_data_no_validation
    (s : Stock) (p : float) (b w n e : Z) (h : array3) (yn y : array2) (k : Z) :
  normDataHistory s = Some h ->
  nextDayValsNorm s = Some yn ->
  nextDayVals s = Some y ->
  py_int (float_of_int (len h) * p)%float = Ok k ->
  let configured := after (set_globals p b w n e) s in
  let s' := after split_data configured in
  outcome (set_globals p b w n e) s = Ok tt /\
  testProp configured = p /\
  outcome split_data configured = Ok tt /\
  train_samplesX s' = Some (slice None (Some (len h - k)) h) /\
  test_samplesX s' = Some (slice (Some (len h - k)) None h) /\
  held (train_samplesX s') ++ held (test_samplesX s') = h /\
  (forall s0, outcome split_data s0 <> Raise ConfigurationError).
Proof.
  intros Hh Hyn Hy Hk configured s'. subst s' configured.
  unfold after, outcome. rewrite set_globals_run. cbn [fst snd].
  set (c := set_numEpochs e _).
  assert (Hc : split_data c = (split_at (len h - k) h yn y c, Ok tt)).
  { apply split_data_run; subst c; cbn; assumption. }
  rewrite Hc. cbn [fst snd].
  destruct (split_at_partitions (len h - k) h yn y c) as (E1 & E2 & _).
  rewrite E1, E2. cbn [held]. rewrite slice_prefix_suffix.
  repeat split; try reflexivity.
  exact split_data_never_ConfigurationError.
Qed.

Lemma split_data_no_validation_witness :
  outcome split_data (after (set_globals 1.5 32 1 50 5) (ten_samples_with 0.15)) = Ok tt.
Proof.
  pose proof (split_data_no_validation (ten_samples_with 0.15) 1.5 32 1 50 5
                (held (normDataHistory (ten_samples_with 0.15)))
                (held (nextDayValsNorm (ten_samples_with 0.15)))
                (held (nextDayVals (ten_samples_with 0.15))) 15) as H.
  destruct H as (_ & _ & H & _).
  - vm_compute. reflexivity.
  - vm_compute. reflexivity.
  - vm_compute. reflexivity.
  - vm_compute. reflexivity.
  - exact H.
Defined.

(** C5, as the specification words it, fails: a test proportion of 1.5 is
    stored as it is and [split_data] completes with it (five samples on each
    side); a test proportion of 0 completes with an empty test partition, and
    a test proportion of 1 with an empty train partition. *)
Lemma split_data_accepts_any_proportion :
  testProp (ten_samples_with 1.5) = 1.5%float /\
  outcome split_data (ten_samples_with 1.5) = Ok tt /\
  outcome split_data (ten_samples_with 1.5) <> Raise ConfigurationError /\
  len (held (train_samplesX (after split_data (ten_samples_with 1.5)))) = 5 /\
  outcome split_data (ten_samples_with 0) = Ok tt /\
  test_samplesX (after split_data (ten_samples_with 0)) = Some [] /\
  outcome split_data (ten_samples_with 1) = Ok tt /\
  train_samplesX (after split_data (ten_samples_with 1)) = Some [].
Proof.
  repeat split; try (vm_compute; reflexivity).
  vm_compute. discriminate.
Qed.

(** ** The scaler *)

Lemma check_array_raises (X : array2) (e : exn) :
  check_array X = Raise e -> e = ValueError.
Proof.
  unfold check_array. destruct (has_inf X); [intros H; now inversion H|].
  destruct X as [|[|v r] X]; intros H; now inversion H.
Qed.

Lemma MinMaxScaler_fit_raises (X : array2) (e : exn) :
  MinMaxScaler_fit X = Raise e -> e = ValueError.
Proof.
  unfold MinMaxScaler_fit. destruct (check_array X) eqn:H; [discriminate|].
  intros H'. inversion H'; subst. eapply check_array_raises; eassumption.
Qed.

Lemma MinMaxScaler_fit_fitted (X : array2) (sc : MinMaxScaler) :
  MinMaxScaler_fit X = Ok sc ->
  exists scale min_,
    sc = MinMaxScaler_fitted scale min_ /\
    length scale = width X /\ length min_ = width X.
Proof.
  unfold MinMaxScaler_fit. destruct (check_array X); [|discriminate].
  intros H. inversion H. eexists _, _. split; [reflexivity|].
  now rewrite !length_map, length_seq.
Qed.

Lemma row_op_raises f (p r : array1) (e : exn) :
  row_op f p r = Raise e -> e = ValueError.
Proof.
  unfold row_op. destruct (length p =? length r)%nat; [discriminate|].
  destruct p as [|c [|c' p]]; intros H; now inversion H.
Qed.

Lemma MinMaxScaler_transform_raises scale min_ (X : array2) (e : exn) :
  MinMaxScaler_transform (MinMaxScaler_fitted scale min_) X = Raise e -> e = ValueError.
Proof.
  unfold MinMaxScaler_transform.
  destruct (check_array X) eqn:Hc.
  - destruct (mapM (row_op PrimFloat.mul scale) X) eqn:H1.
    + apply mapM_raises. intros r e'. apply row_op_raises.
    + intros H. inversion H; subst.
      revert H1. apply mapM_raises. intros r e'. apply row_op_raises.
  - intros H. inversion H; subst. eapply check_array_raises; eassumption.
Qed.

Lemma MinMaxScaler_transform_length (sc : MinMaxScaler) (X Xn : array2) :
  MinMaxScaler_transform sc X = Ok Xn -> length Xn = length X.
Proof.
  unfold MinMaxScaler_transform. destruct sc; try discriminate.
  destruct (check_array X); [|discriminate].
  destruct (mapM (row_op PrimFloat.mul scale_) X) as [X1|] eqn:H1; [|discriminate].
  intros H2. apply mapM_length in H1, H2. congruence.
Qed.

Lemma has_inf_false_in (X : array2) (r : array1) (v : float) :
  has_inf X = false -> In r X -> In v r -> is_infinity v = false.
Proof.
  unfold has_inf. intros H Hr Hv.
  destruct (is_infinity v) eqn:E; [|reflexivity].
  assert (existsb (existsb is_infinity) X = true) as C; [|congruence].
  apply existsb_exists. exists r. split; [assumption|].
  apply existsb_exists. exists v. now split.
Qed.

Lemma is_frame_spec (X : array2) :
  is_frame X = true ->
  has_inf X = false /\ (0 < length X)%nat /\ (0 < width X)%nat /\
  Forall (fun r => length r = width X) X.
Proof.
  unfold is_frame. intros H.
  apply andb_prop in H as [H H4]. apply andb_prop in H as [H H3].
  apply andb_prop in H as [H1 H2].
  apply negb_true_iff in H1. apply Nat.ltb_lt in H2, H3.
  repeat split; try assumption; try lia.
  apply Forall_forall. intros r Hr.
  rewrite forallb_forall in H4. apply Nat.eqb_eq. now apply H4.
Qed.

Lemma as_2d_frame (X : array2) : is_frame X = true -> as_2d X = Ok X.
Proof.
  unfold is_frame, as_2d, is_Series. intros H.
  apply andb_prop in H as [H _]. apply andb_prop in H as [_ H].
  apply Nat.ltb_lt in H. destruct (Nat.eqb_spec (width X) 1); [lia | reflexivity].
Qed.

Lemma as_2d_Ok (X Y : array2) : as_2d X = Ok Y -> Y = X.
Proof. unfold as_2d. destruct (is_Series X); intros H; now inversion H. Qed.

Lemma as_2d_raises (X : array2) (e : exn) : as_2d X = Raise e -> e = ValueError.
Proof. unfold as_2d. destruct (is_Series X); intros H; now inversion H. Qed.

Lemma check_array_frame (X : array2) : is_frame X = true -> check_array X = Ok tt.
Proof.
  intros H. apply is_frame_spec in H as (H1 & H2 & H3 & _).
  unfold check_array. rewrite H1.
  destruct X as [|[|v r] X]; cbn in *; try lia. reflexivity.
Qed.

Lemma row_op_aligned f (p r : array1) :
  length r = length p ->
  exists r', row_op f p r = Ok r' /\ length r' = length p.
Proof.
  intros H. unfold row_op. rewrite H, Nat.eqb_refl.
  eexists. split; [reflexivity|].
  rewrite length_map, length_combine. lia.
Qed.

Lemma mapM_row_op f (p : array1) (X : array2) :
  Forall (fun r => length r = length p) X ->
  exists X', mapM (row_op f p) X = Ok X' /\
             length X' = length X /\ Forall (fun r => length r = length p) X'.
Proof.
  induction 1 as [|r X Hr HX (X' & E & L & F)]; cbn.
  - exists []. repeat split. constructor.
  - destruct (row_op_aligned f p r Hr) as (r' & Er & Lr).
    rewrite Er, E. exists (r' :: X'). repeat split; cbn; [lia|].
    now constructor.
Qed.

(** On a data frame, fitting and transforming succeed, and the scaled frame
    has the rows and columns of the original. *)
Lemma fit_transform_frame (X : array2) :
  is_frame X = true ->
  exists sc Xn,
    MinMaxScaler_fit X = Ok sc /\ MinMaxScaler_transform sc X = Ok Xn /\
    length Xn = length X /\ Forall (fun r => length r = width X) Xn.
Proof.
  intros HX. pose proof (check_array_frame X HX) as Hc.
  apply is_frame_spec in HX as (_ & _ & _ & Hrect).
  unfold MinMaxScaler_fit. rewrite Hc.
  set (params := map _ (seq 0 (width X))).
  assert (Lp : length params = width X).
  { subst params. now rewrite length_map, length_seq. }
  destruct (mapM_row_op PrimFloat.mul (map fst params) X) as (X1 & E1 & L1 & F1).
  { rewrite length_map, Lp. exact Hrect. }
  destruct (mapM_row_op PrimFloat.add (map snd params) X1) as (X2 & E2 & L2 & F2).
  { rewrite length_map in *. exact F1. }
  rewrite length_map, Lp in F2.
  exists (MinMaxScaler_fitted (map fst params) (map snd params)), X2.
  split; [reflexivity|].
  unfold MinMaxScaler_transform. rewrite Hc, E1.
  split; [exact E2|]. split; [lia | exact F2].
Qed.

(** ** Windows and targets *)

Lemma py_range_nonpos (n : Z) : n <= 0 -> py_range n = [].
Proof.
  intros H. unfold py_range. replace (Z.to_nat n) with 0%nat by lia. reflexivity.
Qed.

Lemma length_py_range (n : Z) : length (py_range n) = Z.to_nat n.
Proof. unfold py_range. now rewrite length_map, length_seq. Qed.

Lemma nth_error_py_range (n : Z) (i : nat) :
  Z.of_nat i < n -> nth_error (py_range n) i = Some (Z.of_nat i).
Proof.
  intros H. unfold py_range. rewrite nth_error_map, nth_error_seq.
  destruct (Nat.ltb_spec i (Z.to_nat n)); [reflexivity | lia].
Qed.

Lemma In_py_range (n i : Z) : In i (py_range n) -> 0 <= i < n.
Proof.
  unfold py_range. rewrite in_map_iff. intros (j & <- & Hj).
  apply in_seq in Hj. lia.
Qed.

Lemma length_windows (W : Z) (X : array2) :
  length (windows W X) = Z.to_nat (len X - W).
Proof. unfold windows. now rewrite length_map, length_py_range. Qed.

Lemma nth_error_windows (W : Z) (X : array2) (i : nat) :
  Z.of_nat i < len X - W ->
  nth_error (windows W X) i
  = Some (slice (Some (Z.of_nat i)) (Some (Z.of_nat i + W)) X).
Proof.
  intros H. unfold windows. rewrite nth_error_map, nth_error_py_range by assumption.
  reflexivity.
Qed.

Lemma windows_uniform (W : Z) (X : array2) :
  0 <= W -> Forall (fun w => length w = Z.to_nat W) (windows W X).
Proof.
  intros HW. apply Forall_forall. intros w Hw. unfold windows in Hw.
  apply in_map_iff in Hw as (i & <- & Hi). apply In_py_range in Hi.
  apply length_slice_window; lia.
Qed.

Lemma np_array3_uniform (l : list array2) (n : nat) :
  Forall (fun w => length w = n) l -> np_array3 l = Ok l.
Proof.
  intros H. unfold np_array3. destruct l as [|a l]; [reflexivity|].
  replace (forallb _ (a :: l)) with true; [reflexivity|].
  symmetry. apply forallb_forall. intros b Hb. apply Nat.eqb_eq.
  rewrite Forall_forall in H.
  rewrite (H b Hb). symmetry. apply H. now left.
Qed.

Lemma np_array3_Ok (l : list array2) (h : array3) : np_array3 l = Ok h -> h = l.
Proof.
  unfold np_array3. destruct l as [|a l]; [intros H; now inversion H|].
  destruct (forallb _ _); intros H; now inversion H.
Qed.

Lemma np_column_frame (j F : nat) (X : array2) :
  Forall (fun r => length r = F) X -> (j < F)%nat ->
  np_column j X = Ok (column j X).
Proof.
  intros HX Hj. unfold np_column, column. apply mapM_total.
  intros r Hr. rewrite Forall_forall in HX. specialize (HX r Hr).
  destruct (nth_error r j) as [v|] eqn:E.
  - now rewrite (nth_error_nth _ _ _ E).
  - apply nth_error_None in E. lia.
Qed.

Lemma py_index_inside {A} (l : list A) (k : Z) (d : A) :
  0 <= k < len l -> py_index l k = Ok (nth (Z.to_nat k) l d).
Proof.
  intros H. unfold py_index.
  destruct (k <? 0) eqn:E; [lia|].
  destruct (Z.leb_spec 0 k); [|lia]. destruct (Z.ltb_spec k (len l)); [|lia].
  cbn. destruct (nth_error l (Z.to_nat k)) as [a|] eqn:En.
  - now rewrite (nth_error_nth _ _ _ En).
  - apply nth_error_None in En. unfold len in H. lia.
Qed.

Lemma len_column (j : nat) (X : array2) : len (column j X) = len X.
Proof. unfold len, column. now rewrite length_map. Qed.

(** The targets of a frame: entry [i] is the first column of row [i + W]. *)
Lemma next_values_frame (W : Z) (F : nat) (X : array2) :
  Forall (fun r => length r = F) X -> (0 < F)%nat -> 0 <= W ->
  next_values W X
  = Ok (map (fun i => nth (Z.to_nat (i + W)) (column 0 X) nan) (py_range (len X - W))).
Proof.
  intros HX HF HW. unfold next_values. apply mapM_total.
  intros i Hi. apply In_py_range in Hi.
  rewrite (np_column_frame 0 F X HX HF).
  apply py_index_inside. rewrite len_column. lia.
Qed.

Lemma nth_column (j : nat) (X : array2) (k : nat) (row : array1) :
  nth_error X k = Some row -> nth k (column j X) nan = nth j row nan.
Proof.
  intros H. unfold column.
  apply nth_error_nth. rewrite nth_error_map.
  unfold array2, array1 in *. now rewrite H.
Qed.

Lemma len_expand_dims (a : array1) : len (expand_dims a) = len a.
Proof. unfold len, expand_dims. now rewrite length_map. Qed.

(** ** Sample preparation *)

Lemma prepare_samples_inv (s s' : Stock) :
  prepare_samples s = (s', Ok tt) ->
  exists sc ysc Xn yn y,
    MinMaxScaler_fit (data s) = Ok sc /\
    MinMaxScaler_transform sc (data s) = Ok Xn /\
    np_array3 (windows (numSeq s) Xn) = Ok (windows (numSeq s) Xn) /\
    next_values (numSeq s) Xn = Ok yn /\
    next_values (numSeq s) (data s) = Ok y /\
    MinMaxScaler_fit (expand_dims y) = Ok ysc /\
    s' = samples_at sc ysc Xn (windows (numSeq s) Xn) yn y s.
Proof.
  unfold prepare_samples. run_method.
  destruct (as_2d (data s)) as [X|] eqn:HX; cbn; [|discriminate].
  apply as_2d_Ok in HX. subst X.
  destruct (MinMaxScaler_fit (data s)) as [sc|] eqn:Hfit; [|discriminate].
  destruct (MinMaxScaler_transform sc (data s)) as [Xn|] eqn:Htr; [|discriminate].
  destruct (np_array3 (windows (numSeq s) Xn)) as [h|] eqn:Hh; [|discriminate].
  destruct (next_values (numSeq s) Xn) as [yn|] eqn:Hyn; [|discriminate].
  destruct (next_values (numSeq s) (data s)) as [y|] eqn:Hy; [|discriminate].
  destruct (MinMaxScaler_fit (expand_dims y)) as [ysc|] eqn:Hysc; [|discriminate].
  intros H. inversion H; subst. clear H.
  pose proof (np_array3_Ok _ _ Hh) as ->.
  exists sc, ysc, Xn, yn, y. repeat split; assumption.
Qed.

Lemma prepare_samples_run (s : Stock) (sc ysc : MinMaxScaler) (Xn : array2)
    (yn y : array1) :
  as_2d (data s) = Ok (data s) ->
  MinMaxScaler_fit (data s) = Ok sc ->
  MinMaxScaler_transform sc (data s) = Ok Xn ->
  np_array3 (windows (numSeq s) Xn) = Ok (windows (numSeq s) Xn) ->
  next_values (numSeq s) Xn = Ok yn ->
  next_values (numSeq s) (data s) = Ok y ->
  MinMaxScaler_fit (expand_dims y) = Ok ysc ->
  len (windows (numSeq s) Xn) = len yn ->
  prepare_samples s = (samples_at sc ysc Xn (windows (numSeq s) Xn) yn y s, Ok tt).
Proof.
  intros HX Hfit Htr Hh Hyn Hy Hysc Hlen. unfold prepare_samples. run_method.
  rewrite HX. cbn.
  rewrite Hfit, Htr, Hh, Hyn, Hy, Hysc, len_expand_dims, Hlen, Z.eqb_refl.
  reflexivity.
Qed.

(** C8: a second [prepare_samples] directly after the first leaves the
    instance exactly as the first did, every windowed sample and target
    included, and ends the same way. *)
Theorem prepare_samples_idempotent (s : Stock) :
  prepare_samples (after prepare_samples s) = prepare_samples s.
Proof.
  unfold after, prepare_samples. run_method.
  destruct (as_2d (data s)) as [X|] eqn:HX; rerun.
  pose proof (as_2d_Ok _ _ HX). subst X.
  destruct (MinMaxScaler_fit (data s)) as [sc|] eqn:Hfit; rerun.
  destruct (MinMaxScaler_transform sc (data s)) as [Xn|] eqn:Htr; rerun.
  destruct (np_array3 (windows (numSeq s) Xn)) as [h|] eqn:Hh; rerun.
  destruct (next_values (numSeq s) Xn) as [yn|] eqn:Hyn; rerun.
  destruct (next_values (numSeq s) (data s)) as [y|] eqn:Hy; rerun.
  destruct (MinMaxScaler_fit (expand_dims y)) as [ysc|] eqn:Hysc; rerun.
Qed.

(** C3, as the code has it: when the frame has no more rows than the window
    length, [prepare_samples] fails with the [ValueError] of the scaler's
    input validation (there is no target to fit the target scaler on). *)
Theorem prepare_samples_too_short (s : Stock) :
  len (data s) <= numSeq s ->
  outcome prepare_samples s = Raise ValueError.
Proof.
  intros Hshort. unfold outcome, prepare_samples. run_method.
  destruct (as_2d (data s)) as [X|e] eqn:HX; cbn.
  2:{ now rewrite (as_2d_raises _ _ HX). }
  apply as_2d_Ok in HX. subst X.
  destruct (MinMaxScaler_fit (data s)) as [sc|e] eqn:Hfit; cbn.
  2:{ now rewrite (MinMaxScaler_fit_raises _ _ Hfit). }
  destruct (MinMaxScaler_fit_fitted _ _ Hfit) as (scale & min_ & -> & _).
  destruct (MinMaxScaler_transform _ (data s)) as [Xn|e] eqn:Htr; cbn.
  2:{ now rewrite (MinMaxScaler_transform_raises _ _ _ _ Htr). }
  apply MinMaxScaler_transform_length in Htr.
  assert (Hn : len Xn - numSeq s <= 0) by (unfold len in *; lia).
  unfold windows, next_values.
  rewrite (py_range_nonpos _ Hn).
  rewrite (py_range_nonpos (len (data s) - numSeq s)) by lia.
  reflexivity.
Qed.

Lemma prepare_samples_too_short_witness :
  outcome prepare_samples too_short = Raise ValueError.
Proof.
  apply prepare_samples_too_short. vm_compute. discriminate.
Defined.

(** C3, as the specification words it, fails: with three records and a window
    of five the call ends in [ValueError], not in [InsufficientDataError]. *)
Lemma prepare_samples_no_InsufficientDataError :
  len (data too_short) = 3 /\ numSeq too_short = 5 /\
  outcome prepare_samples too_short = Raise ValueError /\
  outcome prepare_samples too_short <> Raise InsufficientDataError.
Proof.
  repeat split; try (vm_compute; reflexivity).
  vm_compute. discriminate.
Qed.

Lemma frame_first_column_finite (X : array2) (k : nat) :
  is_frame X = true -> (k < length X)%nat ->
  is_infinity (nth k (column 0 X) nan) = false.
Proof.
  intros HX Hk. apply is_frame_spec in HX as (Hinf & _ & Hw & Hrect).
  destruct (nth_error X k) as [row|] eqn:E.
  2:{ apply nth_error_None in E. lia. }
  rewrite (nth_column 0 X k row E).
  apply (has_inf_false_in X row); [assumption | eapply nth_error_In; eassumption |].
  rewrite Forall_forall in Hrect.
  apply nth_In. rewrite (Hrect row) by (eapply nth_error_In; eassumption). lia.
Qed.

(** The target scaler can be fitted once there is at least one target. *)
Lemma fit_targets_frame (W : Z) (X : array2) :
  is_frame X = true -> 0 <= W < len X ->
  exists ysc,
    MinMaxScaler_fit
      (expand_dims (map (fun i => nth (Z.to_nat (i + W)) (column 0 X) nan)
                        (py_range (len X - W)))) = Ok ysc.
Proof.
  intros HX HW. unfold MinMaxScaler_fit.
  set (Y := expand_dims _).
  assert (Hc : check_array Y = Ok tt).
  { unfold check_array.
    assert (Hinf : has_inf Y = false).
    { unfold has_inf. apply not_true_is_false. intros C.
      apply existsb_exists in C as (r & Hr & C).
      apply existsb_exists in C as (v & Hv & C).
      subst Y. unfold expand_dims in Hr.
      apply in_map_iff in Hr as (v' & <- & Hv').
      destruct Hv as [<-|[]].
      apply in_map_iff in Hv' as (i & <- & Hi). apply In_py_range in Hi.
      rewrite frame_first_column_finite in C; [discriminate | assumption |].
      unfold len in *. lia. }
    rewrite Hinf. subst Y. unfold expand_dims, py_range.
    destruct (Z.to_nat (len X - W)) as [|n] eqn:E; [lia|]. reflexivity. }
  rewrite Hc. eexists. reflexivity.
Qed.

Lemma nth_error_targets (W : Z) (F : nat) (X : array2) (i : nat) :
  Forall (fun r => length r = F) X -> (0 < F)%nat -> 0 <= W ->
  Z.of_nat i < len X - W ->
  exists row v,
    nth_error X (i + Z.to_nat W) = Some row /\ nth_error row 0 = Some v /\
    nth_error
      (expand_dims (map (fun i => nth (Z.to_nat (i + W)) (column 0 X) nan)
                        (py_range (len X - W)))) i = Some [v].
Proof.
  intros HX HF HW Hi.
  destruct (nth_error X (i + Z.to_nat W)) as [row|] eqn:Erow.
  2:{ apply nth_error_None in Erow. unfold len in Hi. lia. }
  assert (Lrow : length row = F).
  { rewrite Forall_forall in HX. apply HX. eapply nth_error_In; eassumption. }
  destruct row as [|v row]; [cbn in Lrow; lia|].
  exists (v :: row), v. repeat split.
  unfold expand_dims. rewrite !nth_error_map, nth_error_py_range by assumption.
  cbn [option_map]. do 2 f_equal.
  replace (Z.to_nat (Z.of_nat i + W)) with (i + Z.to_nat W)%nat by lia.
  now rewrite (nth_column 0 X _ _ Erow).
Qed.

(** C2: on a frame of [N] rows and a window length [W] with [0 <= W < N],
    [prepare_samples] completes with exactly [N - W] windowed samples over the
    frame scaled by the scaler fitted on it; sample [i] has [W] rows, its row
    [j] is row [i + j] of the scaled frame, and its target is the first column
    of row [i + W], scaled in [nextDayValsNorm] and in original units in
    [nextDayVals]. *)
Theorem prepare_samples_windows (s : Stock) (N W : Z) :
  is_frame (data s) = true ->
  len (data s) = N ->
  numSeq s = W ->
  0 <= W < N ->
  exists sc Xn h yn y,
    MinMaxScaler_fit (data s) = Ok sc /\
    MinMaxScaler_transform sc (data s) = Ok Xn /\
    len Xn = N /\
    outcome prepare_samples s = Ok tt /\
    normalizedData (after prepare_samples s) = Some Xn /\
    normDataHistory (after prepare_samples s) = Some h /\
    nextDayValsNorm (after prepare_samples s) = Some yn /\
    nextDayVals (after prepare_samples s) = Some y /\
    len h = N - W /\ len yn = N - W /\ len y = N - W /\
    forall i : nat, Z.of_nat i < N - W ->
      exists w row v row0 v0,
        nth_error h i = Some w /\
        length w = Z.to_nat W /\
        (forall j : nat, Z.of_nat j < W -> nth_error w j = nth_error Xn (i + j)) /\
        nth_error Xn (i + Z.to_nat W) = Some row /\
        nth_error row 0 = Some v /\
        nth_error yn i = Some [v] /\
        nth_error (data s) (i + Z.to_nat W) = Some row0 /\
        nth_error row0 0 = Some v0 /\
        nth_error y i = Some [v0].
Proof.
  intros HX HN HW Hrange.
  destruct (fit_transform_frame (data s) HX) as (sc & Xn & Hfit & Htr & LXn & FXn).
  pose proof (is_frame_spec _ HX) as (_ & _ & Hwidth & Hrect).
  assert (LenXn : len Xn = N) by (unfold len in *; lia).
  assert (Hh : np_array3 (windows W Xn) = Ok (windows W Xn)).
  { apply (np_array3_uniform _ (Z.to_nat W)). apply windows_uniform. lia. }
  pose proof (next_values_frame W _ Xn FXn Hwidth (proj1 Hrange)) as Hyn.
  pose proof (next_values_frame W _ (data s) Hrect Hwidth (proj1 Hrange)) as Hy.
  destruct (fit_targets_frame W (data s) HX) as (ysc & Hysc); [lia|].
  subst W.
  pose proof (prepare_samples_run s sc ysc Xn _ _ (as_2d_frame _ HX)
                Hfit Htr Hh Hyn Hy Hysc) as Hrun.
  unfold after, outcome. rewrite Hrun.
  2:{ unfold len. rewrite length_windows, length_map, length_py_range. reflexivity. }
  eexists sc, Xn, _, _, _. cbn [fst snd]. unfold samples_at. cbn.
  repeat split; try reflexivity; try assumption.
  - unfold len. rewrite length_windows. len_lia.
  - rewrite len_expand_dims. unfold len. rewrite length_map, length_py_range.
    len_lia.
  - rewrite len_expand_dims. unfold len. rewrite length_map, length_py_range.
    len_lia.
  - intros i Hi.
    destruct (nth_error_targets (numSeq s) _ Xn i FXn Hwidth (proj1 Hrange))
      as (row & v & Erow & Ev & Eyn); [lia|].
    destruct (nth_error_targets (numSeq s) _ (data s) i Hrect Hwidth (proj1 Hrange))
      as (row0 & v0 & Erow0 & Ev0 & Ey); [lia|].
    exists (slice (Some (Z.of_nat i)) (Some (Z.of_nat i + numSeq s)) Xn), row, v, row0, v0.
    repeat split; try assumption.
    + apply nth_error_windows. lia.
    + apply length_slice_window; lia.
    + intros j Hj. rewrite nth_error_slice_window by lia.
      now rewrite Nat2Z.id.
Qed.

Lemma prepare_samples_windows_witness :
  exists h, normDataHistory (after prepare_samples scenario) = Some h /\ len h = 15.
Proof.
  destruct (prepare_samples_windows scenario 20 5)
    as (sc & Xn & h & yn & y & _ & _ & _ & _ & _ & Hh & _ & _ & Lh & _).
  - vm_compute. reflexivity.
  - vm_compute. reflexivity.
  - vm_compute. reflexivity.
  - lia.
  - exists h. split; [exact Hh | exact Lh].
Defined.

(** C2, outside well-formed frames: with [W < N] in each case, a table of one
    column (a Series), a table with an infinite entry, and a window length of
    -1 all make [prepare_samples] raise [ValueError], and no windowed sample
    is stored. *)
Lemma prepare_samples_windows_not_for_every_series :
  (len (data series_stock) = 5 /\ numSeq series_stock = 1 /\
   outcome prepare_samples series_stock = Raise ValueError /\
   normDataHistory (after prepare_samples series_stock) = None) /\
  (len (data infinite_entry) = 5 /\ numSeq infinite_entry = 1 /\
   outcome prepare_samples infinite_entry = Raise ValueError /\
   normDataHistory (after prepare_samples infinite_entry) = None) /\
  (len (data negative_window) = 5 /\ numSeq negative_window = -1 /\
   outcome prepare_samples negative_window = Raise ValueError /\
   normDataHistory (after prepare_samples negative_window) = None).
Proof. repeat split; vm_compute; reflexivity. Qed.

(** ** Indicators and the whole preparation *)

Lemma prepare_indicators_inv (s s' : Stock) :
  prepare_indicators s = (s', Ok tt) ->
  exists h isc inds indsNorm,
    normDataHistory s = Some h /\
    mapM indicator h = Ok inds /\
    MinMaxScaler_fit inds = Ok isc /\
    MinMaxScaler_transform isc inds = Ok indsNorm /\
    s' = indicators_at isc inds indsNorm s.
Proof.
  unfold prepare_indicators. run_method.
  destruct (normDataHistory s) as [h|]; cbn; [|discriminate].
  destruct (mapM indicator h) as [inds|] eqn:Hinds; cbn; [|discriminate].
  destruct (MinMaxScaler_fit inds) as [isc|] eqn:Hfit; cbn; [|discriminate].
  destruct (MinMaxScaler_transform isc inds) as [indsNorm|] eqn:Htr; cbn;
    [|discriminate].
  intros H. inversion H; subst.
  exists h, isc, inds, indsNorm. repeat split; assumption.
Qed.

Lemma split_data_inv (s s' : Stock) :
  split_data s = (s', Ok tt) ->
  exists h yn y k,
    normDataHistory s = Some h /\ nextDayValsNorm s = Some yn /\
    nextDayVals s = Some y /\
    py_int (float_of_int (len h) * testProp s)%float = Ok k /\
    s' = split_at (len h - k) h yn y s.
Proof.
  unfold split_data, split_index. run_method.
  destruct (normDataHistory s) as [h|]; cbn; [|discriminate].
  destruct (py_int (float_of_int (len h) * testProp s)) as [k|] eqn:Hk; cbn;
    [|discriminate].
  destruct (nextDayValsNorm s) as [yn|]; cbn; [|discriminate].
  destruct (nextDayVals s) as [y|]; cbn; [|discriminate].
  intros H. inversion H; subst.
  exists h, yn, y, k. repeat split; assumption.
Qed.

Lemma split_indicator_data_inv (s s' : Stock) :
  split_indicator_data s = (s', Ok tt) ->
  exists i k,
    indicatorsNorm s = Some i /\
    py_int (float_of_int (len i) * testProp s)%float = Ok k /\
    s' = indicators_split_at (len i - k) i s.
Proof.
  unfold split_indicator_data, split_index. run_method.
  destruct (indicatorsNorm s) as [i|]; cbn; [|discriminate].
  destruct (py_int (float_of_int (len i) * testProp s)) as [k|] eqn:Hk; cbn;
    [|discriminate].
  intros H. inversion H; subst.
  exists i, k. repeat split; assumption.
Qed.

Lemma bind_Ok_inv {A B} (m : Method A) (k : A -> Method B) (s s' : Stock) (b : B) :
  bind m k s = (s', Ok b) ->
  exists s1 a, m s = (s1, Ok a) /\ k a s1 = (s', Ok b).
Proof.
  unfold bind. destruct (m s) as [s1 [a|e]]; [|discriminate].
  intros H. now exists s1, a.
Qed.

Lemma method_result {A} (m : Method A) (s : Stock) (r : result A) :
  outcome m s = r -> m s = (after m s, r).
Proof. unfold outcome, after. destruct (m s). cbn. now intros ->. Qed.

(** What a completed preparation has computed, stage by stage. *)
Lemma prepare_inv (s : Stock) :
  outcome prepare s = Ok tt ->
  exists sc ysc Xn yn y isc inds indsNorm k,
    MinMaxScaler_fit (data s) = Ok sc /\
    MinMaxScaler_transform sc (data s) = Ok Xn /\
    mapM indicator (windows (numSeq s) Xn) = Ok inds /\
    MinMaxScaler_fit inds = Ok isc /\
    MinMaxScaler_transform isc inds = Ok indsNorm /\
    len indsNorm = len (windows (numSeq s) Xn) /\
    py_int (float_of_int (len (windows (numSeq s) Xn)) * testProp s)%float = Ok k /\
    after prepare_samples s
    = samples_at sc ysc Xn (windows (numSeq s) Xn) yn y s /\
    after prepare s
    = indicators_split_at (len (windows (numSeq s) Xn) - k) indsNorm
        (split_at (len (windows (numSeq s) Xn) - k) (windows (numSeq s) Xn)
           (expand_dims yn) (expand_dims y)
           (indicators_at isc inds indsNorm
              (samples_at sc ysc Xn (windows (numSeq s) Xn) yn y s))).
Proof.
  intros H. apply method_result in H. revert H.
  generalize (after prepare s). intros s4 H. unfold prepare in H.
  apply bind_Ok_inv in H as (s1 & [] & H1 & H).
  apply bind_Ok_inv in H as (s2 & [] & H2 & H).
  apply bind_Ok_inv in H as (s3 & [] & H3 & H4).
  assert (A1 : after prepare_samples s = s1) by (unfold after; now rewrite H1).
  rewrite A1. clear A1.
  apply prepare_samples_inv in H1
    as (sc & ysc & Xn & yn & y & Hfit & Htr & _ & _ & _ & _ & E1).
  apply prepare_indicators_inv in H2
    as (h & isc & inds & indsNorm & Hh & Hinds & Hifit & Hitr & E2).
  apply split_data_inv in H3 as (h' & yn' & y' & k & Hh' & Hyn' & Hy' & Hk & E3).
  apply split_indicator_data_inv in H4 as (i & k' & Hi & Hk' & E4).
  subst s1. cbn in Hh. inversion Hh; subst h. clear Hh.
  subst s2. cbn in Hh', Hyn', Hy', Hk.
  inversion Hh'; subst h'. inversion Hyn'; subst yn'. inversion Hy'; subst y'.
  clear Hh' Hyn' Hy'.
  subst s3. cbn in Hi, Hk'. inversion Hi; subst i. clear Hi.
  assert (Hlen : len indsNorm = len (windows (numSeq s) Xn)).
  { apply MinMaxScaler_transform_length in Hitr. apply mapM_length in Hinds.
    len_lia. }
  rewrite Hlen in *. rewrite Hk in Hk'. inversion Hk'; subst k'. clear Hk'.
  exists sc, ysc, Xn, yn, y, isc, inds, indsNorm, k.
  repeat split; assumption.
Qed.

(** C7: in a completed preparation the sample scaler is fitted on every row of
    the raw frame, and the scaled frame and its windows exist before anything
    is split ([prepare_samples] leaves the partitions as they were); the
    indicator scaler is fitted on the indicators of all the windows. The train
    and test partitions are then cut out of these arrays: train followed by
    test is the full array of windows, and of scaled indicators. *)
Theorem scalers_fitted_before_split (s : Stock) :
  outcome prepare s = Ok tt ->
  exists sc Xn inds isc indsNorm,
    MinMaxScaler_fit (data s) = Ok sc /\
    sc = (let params := map (fun j => fit_feature (column j (data s)))
                            (seq 0 (width (data s))) in
          MinMaxScaler_fitted (map fst params) (map snd params)) /\
    MinMaxScaler_transform sc (data s) = Ok Xn /\
    normalizedData (after prepare_samples s) = Some Xn /\
    normDataHistory (after prepare_samples s) = Some (windows (numSeq s) Xn) /\
    train_samplesX (after prepare_samples s) = train_samplesX s /\
    test_samplesX (after prepare_samples s) = test_samplesX s /\
    mapM indicator (windows (numSeq s) Xn) = Ok inds /\
    MinMaxScaler_fit inds = Ok isc /\
    MinMaxScaler_transform isc inds = Ok indsNorm /\
    held (train_samplesX (after prepare s)) ++ held (test_samplesX (after prepare s))
    = windows (numSeq s) Xn /\
    held (indicators_train (after prepare s)) ++ held (indicators_test (after prepare s))
    = indsNorm.
Proof.
  intros H.
  destruct (prepare_inv s H)
    as (sc & ysc & Xn & yn & y & isc & inds & indsNorm & k
        & Hfit & Htr & Hinds & Hifit & Hitr & _ & _ & E1 & E4).
  exists sc, Xn, inds, isc, indsNorm. rewrite E1, E4. cbn.
  rewrite !slice_prefix_suffix.
  repeat split; try assumption; try reflexivity.
  unfold MinMaxScaler_fit in Hfit. destruct (check_array (data s)); [|discriminate].
  now inversion Hfit.
Qed.

Lemma scalers_fitted_before_split_witness :
  held (train_samplesX (after prepare scenario))
    ++ held (test_samplesX (after prepare scenario))
  = held (normDataHistory (after prepare_samples scenario)).
Proof.
  destruct (scalers_fitted_before_split scenario)
    as (sc & Xn & inds & isc & indsNorm & _ & _ & _ & _ & Hh & _ & _ & _ & _ & _ & Happ & _).
  - vm_compute. reflexivity.
  - rewrite Hh. exact Happ.
Defined.

(** C10: in a completed preparation there is one scaled indicator per
    windowed sample, the two splits compute the same split index from the same
    test proportion, and so the indicator partitions are as long as the sample
    partitions, train with train and test with test. *)
Theorem indicator_split_matches_sample_split (s : Stock) :
  outcome prepare s = Ok tt ->
  exists h i split,
    normDataHistory (after prepare s) = Some h /\
    indicatorsNorm (after prepare s) = Some i /\
    len (held (indicators (after prepare s))) = len h /\
    len i = len h /\
    split_index (len h) (testProp (after prepare s)) = Ok split /\
    split_index (len i) (testProp (after prepare s)) = Ok split /\
    train_samplesX (after prepare s) = Some (slice None (Some split) h) /\
    test_samplesX (after prepare s) = Some (slice (Some split) None h) /\
    indicators_train (after prepare s) = Some (slice None (Some split) i) /\
    indicators_test (after prepare s) = Some (slice (Some split) None i) /\
    len (held (indicators_train (after prepare s)))
    = len (held (train_samplesX (after prepare s))) /\
    len (held (indicators_test (after prepare s)))
    = len (held (test_samplesX (after prepare s))).
Proof.
  intros H.
  destruct (prepare_inv s H)
    as (sc & ysc & Xn & yn & y & isc & inds & indsNorm & k
        & _ & _ & Hinds & _ & _ & Hlen & Hk & _ & E4).
  exists (windows (numSeq s) Xn), indsNorm, (len (windows (numSeq s) Xn) - k).
  rewrite E4. cbn. unfold split_index.
  rewrite Hlen, Hk, !len_slice_prefix, !len_slice_suffix, Hlen.
  repeat split; try reflexivity.
  apply mapM_length in Hinds. len_lia.
Qed.

Lemma indicator_split_matches_sample_split_witness :
  len (held (indicators_train (after prepare scenario))) = 12 /\
  len (held (train_samplesX (after prepare scenario))) = 12 /\
  len (held (indicators_test (after prepare scenario))) = 3 /\
  len (held (test_samplesX (after prepare scenario))) = 3.
Proof.
  destruct (indicator_split_matches_sample_split scenario)
    as (h & i & split & _ & _ & _ & _ & _ & _ & _ & _ & _ & _ & Htrain & Htest).
  - vm_compute. reflexivity.
  - rewrite Htrain, Htest. vm_compute. repeat split; reflexivity.
Defined.

(** ** Evaluation *)

Lemma broadcast_aligned {A B C} (f : A -> B -> result C) (x : list A) (y : list B) :
  Forall2 (fun a b => exists c, f a b = Ok c) x y ->
  exists z, broadcast f x y = Ok z.
Proof.
  intros H. unfold broadcast.
  rewrite (Forall2_length H), Nat.eqb_refl.
  induction H as [|a b x y (c & Hc) _ (z & IH)]; cbn.
  - now exists [].
  - rewrite Hc, IH. now exists (c :: z).
Qed.

Lemma np_sub2_same_shape (x y : array2) :
  same_shape x y -> exists d, np_sub2 x y = Ok d.
Proof.
  intros H. unfold np_sub2. apply broadcast_aligned.
  induction H as [|a b x y Hab _ IH]; constructor; [|exact IH].
  apply broadcast_aligned. clear IH.
  revert b Hab. induction a as [|u a IHa]; intros [|v b] Hab; cbn in Hab;
    try discriminate; constructor.
  - eexists. reflexivity.
  - apply IHa. now inversion Hab.
Qed.

Lemma scale_mse_nonempty (MSE : float) (t : array2) :
  concat t <> [] -> exists x, scale_mse MSE t = Ok x.
Proof.
  intros H. unfold scale_mse, np_max, np_min.
  destruct (concat t); [contradiction|]. eexists. reflexivity.
Qed.

Section EngineProperties.

Variable keras_input : Z -> Z -> result unit.
Variable keras_build : architecture -> result unit.
Variable keras_fit : architecture -> training -> result unit.
Variable keras_predict :
  keras_model -> option array3 -> option array2 -> result array2.
Variable r2_score : array2 -> array2 -> result float.

(** In no state does [evaluate_forecasts] complete or change the instance:
    it ends in an exception, at the latest the [TypeError] of the first
    report line, and nothing has been printed by then. *)
Lemma evaluate_forecasts_fails (s : Stock) :
  after (evaluate_forecasts keras_predict r2_score) s = s /\
  exists e, outcome (evaluate_forecasts keras_predict r2_score) s = Raise e /\
    (forall predicted prices t d x,
        keras_predict (model s) (test_samplesX s) (indicators_test s) = Ok predicted ->
        MinMaxScaler_inverse_transform (scaler s) predicted = Ok prices ->
        nextDayVals_test s = Some t ->
        np_sub2 t prices = Ok d ->
        scale_mse (mean_square d) t = Ok x ->
        e = TypeError).
Proof.
  unfold after, outcome, evaluate_forecasts. run_method.
  destruct (keras_predict _ _ _) as [predicted|e] eqn:Hp; cbn.
  2:{ split; [reflexivity|]. exists e. split; [reflexivity|]. discriminate. }
  destruct (MinMaxScaler_inverse_transform _ _) as [prices|e] eqn:Hinv; cbn.
  2:{ split; [reflexivity|]. exists e. split; [reflexivity | same_run]. }
  destruct (nextDayVals_test s) as [t|] eqn:Ht; cbn.
  2:{ split; [reflexivity|]. eexists. split; [reflexivity | same_run]. }
  destruct (np_sub2 t prices) as [d|e] eqn:Hd; cbn.
  2:{ split; [reflexivity|]. exists e. split; [reflexivity | same_run]. }
  destruct (scale_mse (mean_square d) t) as [x|e] eqn:Hx; cbn.
  2:{ split; [reflexivity|]. exists e. split; [reflexivity | same_run]. }
  split; [reflexivity|]. exists TypeError. split; reflexivity.
Qed.

(** C9: once predictions for the test partition are obtained and mapped
    back to original units, and they have the shape of the (non-empty) test
    targets, [evaluate_forecasts] ends in the [TypeError] of
    ["MSE Score: " + MSE_scaled], leaving the instance, its output included,
    as it was; and in no state at all does the call return or print. *)
Theorem evaluate_forecasts_TypeError
    (s : Stock) (predicted prices t : array2) :
  keras_predict (model s) (test_samplesX s) (indicators_test s) = Ok predicted ->
  MinMaxScaler_inverse_transform (scaler s) predicted = Ok prices ->
  nextDayVals_test s = Some t ->
  same_shape t prices ->
  concat t <> [] ->
  outcome (evaluate_forecasts keras_predict r2_score) s = Raise TypeError /\
  stdout (after (evaluate_forecasts keras_predict r2_score) s) = stdout s /\
  (forall s0, stdout (after (evaluate_forecasts keras_predict r2_score) s0) = stdout s0 /\
              exists e, outcome (evaluate_forecasts keras_predict r2_score) s0 = Raise e).
Proof.
  intros Hp Hinv Ht Hshape Hne.
  destruct (np_sub2_same_shape _ _ Hshape) as (d & Hd).
  destruct (scale_mse_nonempty (mean_square d) t Hne) as (x & Hx).
  destruct (evaluate_forecasts_fails s) as (Hs & e & He & HT).
  rewrite (HT _ _ _ _ _ Hp Hinv Ht Hd Hx) in He.
  repeat split; [exact He | now rewrite Hs |..].
  - destruct (evaluate_forecasts_fails s0) as (Hs0 & _). now rewrite Hs0.
  - destruct (evaluate_forecasts_fails s0) as (_ & e0 & He0 & _). now exists e0.
Qed.

(** C4, as the code has it: on a freshly constructed instance the split
    fails with [AttributeError] (the placeholder has no [shape]),
    [prepare_indicators] with [TypeError] (the placeholder cannot be
    iterated) and [split_indicator_data] with [AttributeError]; [fit_LSTM]
    fails too, and [evaluate_forecasts] fails on every instance, trained or
    not. *)
Theorem out_of_order_calls_fail (stockName : string) (table : array2) :
  let s := Stock_init stockName table in
  outcome split_data s = Raise AttributeError /\
  outcome prepare_indicators s = Raise TypeError /\
  outcome split_indicator_data s = Raise AttributeError /\
  (exists e, outcome (fit_LSTM keras_input keras_build keras_fit) s = Raise e) /\
  (forall s0, exists e, outcome (evaluate_forecasts keras_predict r2_score) s0 = Raise e).
Proof.
  cbn. repeat split.
  - unfold outcome, fit_LSTM, indicator_columns. run_method.
    destruct (shape_1 (dropna table)) as [F|e]; cbn; [|eexists; reflexivity].
    destruct (keras_input 1 F) as [[]|e]; cbn; eexists; reflexivity.
  - intros s0. destruct (evaluate_forecasts_fails s0) as (_ & e0 & He0 & _).
    now exists e0.
Qed.

End EngineProperties.

(** ** The scenario, run with the stand-in engine *)

Lemma evaluate_forecasts_TypeError_witness :
  outcome naive_evaluate_forecasts trained_scenario = Raise TypeError /\
  stdout (after naive_evaluate_forecasts trained_scenario) = [].
Proof.
  pose proof (evaluate_forecasts_TypeError naive_predict naive_r2 trained_scenario
                (returned (naive_predict (model trained_scenario)
                             (test_samplesX trained_scenario)
                             (indicators_test trained_scenario)))
                (returned (MinMaxScaler_inverse_transform (scaler trained_scenario)
                             (returned (naive_predict (model trained_scenario)
                                          (test_samplesX trained_scenario)
                                          (indicators_test trained_scenario)))))
                (held (nextDayVals_test trained_scenario))) as H.
  destruct H as (H1 & H2 & _).
  - vm_compute. reflexivity.
  - vm_compute. reflexivity.
  - vm_compute. reflexivity.
  - vm_compute. repeat constructor.
  - vm_compute. discriminate.
  - split; [exact H1 |].
    etransitivity; [exact H2 | vm_compute; reflexivity].
Defined.

(** C9 on a trained instance without test samples: five records and windows
    of one give four samples, [int(4 * 0.2)] is 0, so the test partition is
    empty; the prediction has no rows, and the call ends in the [ValueError]
    of the scaler's inverse transform, before the report line is reached. *)
Lemma evaluate_forecasts_empty_test_ValueError :
  outcome (prepare ;; naive_fit_LSTM) five_records = Ok tt /\
  len (held (train_samplesX trained_five_records)) = 4 /\
  test_samplesX trained_five_records = Some [] /\
  nextDayVals_test trained_five_records = Some [] /\
  outcome naive_evaluate_forecasts trained_five_records = Raise ValueError.
Proof. repeat split; vm_compute; reflexivity. Qed.

(** C6 on the scenario: preparation and training complete, the test partition
    holds three samples, and the evaluation then ends in [TypeError] with
    nothing printed, where the claim has it report both metrics. *)
Lemma evaluate_forecasts_scenario :
  outcome (prepare ;; naive_fit_LSTM) scenario = Ok tt /\
  len (held (test_samplesX trained_scenario)) = 3 /\
  outcome naive_evaluate_forecasts trained_scenario = Raise TypeError /\
  stdout (after naive_evaluate_forecasts trained_scenario) = [].
Proof. repeat split; vm_compute; reflexivity. Qed.

(** C4, as the specification words it, fails: on a freshly constructed
    instance the split ends in [AttributeError], not in [SequenceError]. *)
Lemma split_before_prepare_not_SequenceError :
  outcome split_data (Stock_init "LIN" (linear_table 20)) = Raise AttributeError /\
  outcome split_data (Stock_init "LIN" (linear_table 20)) <> Raise SequenceError.
Proof. split; [reflexivity | discriminate]. Qed.

(** The split itself asks for the windowed samples only: right after
    [prepare_samples], with no indicators prepared, it completes. *)
Lemma split_without_indicators :
  outcome (prepare_samples ;; split_data) scenario = Ok tt.
Proof. vm_compute. reflexivity. Qed.

(** What fitting on the whole frame means for the train partition: replacing
    only the last record, which lies in the test portion, changes the second
    day of the first train sample. *)
Lemma train_samples_depend_on_last_record :
  outcome prepare (scenario_ending_in 19) = Ok tt /\
  outcome prepare (scenario_ending_in 500) = Ok tt /\
  (second_day_of_first_sample (after prepare (scenario_ending_in 19))
   =? second_day_of_first_sample (after prepare (scenario_ending_in 500)))%float = false.
Proof. repeat split; vm_compute; reflexivity. Qed.

(** * Further properties of the forecasting class *)

(** ** The frame and the parameters are read-only *)

(** X1: no preparation, training or evaluation method changes the frame, the
    name or any of the five parameters, however it ends; [set_globals]
    completes, stores the five values it is given, and leaves every other
    attribute as it was. *)
Theorem methods_keep_configuration
    (keras_input : Z -> Z -> result unit)
    (keras_build : architecture -> result unit)
    (keras_fit : architecture -> training -> result unit)
    (keras_predict : keras_model -> option array3 -> option array2 -> result array2)
    (r2_score : array2 -> array2 -> result float)
    (s : Stock) :
  same_configuration s (after prepare_samples s) /\
  same_configuration s (after prepare_indicators s) /\
  same_configuration s (after split_data s) /\
  same_configuration s (after split_indicator_data s) /\
  same_configuration s (after (fit_LSTM keras_input keras_build keras_fit) s) /\
  same_configuration s (after (evaluate_forecasts keras_predict r2_score) s) /\
  (forall p b w n e,
      outcome (set_globals p b w n e) s = Ok tt /\
      same_but_globals s (after (set_globals p b w n e) s) /\
      testProp (after (set_globals p b w n e) s) = p /\
      batchSize (after (set_globals p b w n e) s) = b /\
      numSeq (after (set_globals p b w n e) s) = w /\
      numNeurons (after (set_globals p b w n e) s) = n /\
      numEpochs (after (set_globals p b w n e) s) = e).
Proof.
  unfold same_configuration, same_but_globals, after, outcome.
  repeat apply conj.
  all: try (intros; unfold set_globals; run_method; repeat split; reflexivity).
  all: unfold prepare_samples, prepare_indicators, split_data, split_indicator_data,
         fit_LSTM, indicator_columns, evaluate_forecasts, split_index;
       run_method; walk; reflexivity.
Qed.

(** ** Preparation on a frame, step by step *)

(** On a frame longer than the window, [prepare_samples] completes; the state
    it leaves, with the scalers, windows and targets written out. *)
Lemma prepare_samples_frame_run (s : Stock) :
  is_frame (data s) = true ->
  0 <= numSeq s < len (data s) ->
  exists sc ysc Xn,
    MinMaxScaler_fit (data s) = Ok sc /\
    MinMaxScaler_transform sc (data s) = Ok Xn /\
    length Xn = length (data s) /\
    Forall (fun r => length r = width (data s)) Xn /\
    prepare_samples s
    = (samples_at sc ysc Xn (windows (numSeq s) Xn)
         (map (fun i => nth (Z.to_nat (i + numSeq s)) (column 0 Xn) nan)
              (py_range (len Xn - numSeq s)))
         (map (fun i => nth (Z.to_nat (i + numSeq s)) (column 0 (data s)) nan)
              (py_range (len (data s) - numSeq s))) s,
       Ok tt).
Proof.
  intros HX HW.
  destruct (fit_transform_frame (data s) HX) as (sc & Xn & Hfit & Htr & LXn & FXn).
  pose proof (is_frame_spec _ HX) as (_ & _ & Hwidth & Hrect).
  assert (Hh : np_array3 (windows (numSeq s) Xn) = Ok (windows (numSeq s) Xn)).
  { apply (np_array3_uniform _ (Z.to_nat (numSeq s))). apply windows_uniform. lia. }
  pose proof (next_values_frame (numSeq s) _ Xn FXn Hwidth (proj1 HW)) as Hyn.
  pose proof (next_values_frame (numSeq s) _ (data s) Hrect Hwidth (proj1 HW)) as Hy.
  destruct (fit_targets_frame (numSeq s) (data s) HX HW) as (ysc & Hysc).
  exists sc, ysc, Xn. repeat split; try assumption.
  apply prepare_samples_run; try assumption.
  - now apply as_2d_frame.
  - unfold len. now rewrite length_windows, length_map, length_py_range.
Qed.

Lemma windows_head (W : Z) (X : array2) :
  1 <= W < len X ->
  exists r w ws, X = r :: skipn 1 X /\ windows W X = (r :: w) :: ws.
Proof.
  intros H. destruct X as [|r X]; [cbn in H; lia|].
  unfold windows, py_range.
  destruct (Z.to_nat (len (r :: X) - W)) as [|n] eqn:E; [lia|].
  cbn [seq map]. rewrite slice_window by lia.
  destruct (Z.to_nat W) as [|m] eqn:EW; [lia|].
  cbn. eexists _, _, _. split; reflexivity.
Qed.

(** X3: the indicator reads column 4. On a frame with fewer than five columns
    and at least one non-empty window, [prepare_samples] completes and
    [prepare_indicators] then fails with [IndexError], leaving the indicator
    attributes as they were. *)
Theorem prepare_indicators_needs_five_columns (s : Stock) :
  is_frame (data s) = true ->
  (width (data s) <= 4)%nat ->
  1 <= numSeq s < len (data s) ->
  outcome prepare_samples s = Ok tt /\
  outcome prepare_indicators (after prepare_samples s) = Raise IndexError /\
  indicators (after prepare_indicators (after prepare_samples s)) = indicators s /\
  indicatorsNorm (after prepare_indicators (after prepare_samples s))
  = indicatorsNorm s.
Proof.
  intros HX Hnarrow HW.
  destruct (prepare_samples_frame_run s HX) as (sc & ysc & Xn & _ & _ & LXn & FXn & Hrun);
    [lia|].
  unfold after, outcome. rewrite Hrun. cbn [fst snd].
  split; [reflexivity|].
  destruct (windows_head (numSeq s) Xn) as (r & w & ws & EX & Ew); [len_lia|].
  assert (Hr : nth_error r 4 = None).
  { apply nth_error_None. rewrite EX in FXn. inversion FXn; subst. lia. }
  assert (Hw : mapM indicator ((r :: w) :: ws) = Raise IndexError).
  { cbn [mapM]. unfold indicator at 1, np_column. cbn [mapM]. now rewrite Hr. }
  unfold prepare_indicators. run_method. rewrite Ew, Hw. cbn.
  repeat split; reflexivity.
Qed.

Lemma prepare_indicators_needs_five_columns_witness :
  outcome prepare_indicators (after prepare_samples narrow_stock) = Raise IndexError.
Proof.
  apply (prepare_indicators_needs_five_columns narrow_stock).
  - vm_compute. reflexivity.
  - vm_compute. lia.
  - vm_compute. split; [discriminate | reflexivity].
Defined.

Lemma mapM_nth_error {A B} (f : A -> result B) (l : list A) (r : list B)
    (i : nat) (a : A) :
  mapM f l = Ok r -> nth_error l i = Some a ->
  exists b, f a = Ok b /\ nth_error r i = Some b.
Proof.
  revert r i. induction l as [|x l IH]; intros r i H Hi.
  - destruct i; discriminate.
  - cbn in H. destruct (f x) as [b|] eqn:Hx; [|discriminate].
    destruct (mapM f l) as [bs|] eqn:Hl; [|discriminate].
    inversion H; subst. destruct i as [|i]; cbn in *.
    + inversion Hi; subst. now exists b.
    + now apply (IH bs i).
Qed.

Lemma np_column_Ok (j : nat) (X : array2) (c : array1) :
  np_column j X = Ok c -> c = column j X.
Proof.
  unfold np_column, column. revert c.
  induction X as [|r X IH]; intros c H; cbn in *.
  - now inversion H.
  - destruct (nth_error r j) as [v|] eqn:E; [|discriminate].
    match type of H with
    | context [mapM ?f X] => destruct (mapM f X) as [c'|] eqn:Hm; [|discriminate]
    end.
    inversion H; subst. rewrite (nth_error_nth _ _ _ E). f_equal. now apply IH.
Qed.

(** X4: when [prepare_samples] and [prepare_indicators] complete, there is one
    indicator per window, and the indicator of window [i] is the mean of
    column 4 over the rows of that window; the scaled indicators are those
    indicators under a scaler fitted on them. *)
Theorem prepare_indicators_means (s : Stock) :
  outcome (prepare_samples ;; prepare_indicators) s = Ok tt ->
  let s' := after (prepare_samples ;; prepare_indicators) s in
  exists h inds isc indsNorm,
    normDataHistory s' = Some h /\
    indicators s' = Some inds /\
    indicatorsNorm s' = Some indsNorm /\
    indicatorScaler s' = isc /\
    length inds = length h /\ length indsNorm = length h /\
    MinMaxScaler_fit inds = Ok isc /\
    MinMaxScaler_transform isc inds = Ok indsNorm /\
    forall (i : nat) (w : array2),
      nth_error h i = Some w ->
      nth_error inds i = Some [np_mean (column 4 w)].
Proof.
  intros H s'. subst s'. apply method_result in H. revert H.
  generalize (after (prepare_samples ;; prepare_indicators) s). intros s2 H.
  apply bind_Ok_inv in H as (s1 & [] & H1 & H2).
  apply prepare_samples_inv in H1
    as (sc & ysc & Xn & yn & y & _ & _ & _ & _ & _ & _ & E1).
  apply prepare_indicators_inv in H2
    as (h & isc & inds & indsNorm & Hh & Hinds & Hifit & Hitr & E2).
  subst s1 s2. cbn in Hh. inversion Hh; subst h. clear Hh.
  exists (windows (numSeq s) Xn), inds, isc, indsNorm. cbn.
  pose proof (mapM_length _ _ _ Hinds) as Linds.
  pose proof (MinMaxScaler_transform_length _ _ _ Hitr) as Lnorm.
  repeat split; try assumption; try reflexivity; try congruence.
  intros i w Hw.
  destruct (mapM_nth_error _ _ _ _ _ Hinds Hw) as (b & Hb & Hi).
  unfold indicator in Hb.
  destruct (np_column 4 w) as [c|] eqn:Hc; [|discriminate].
  apply np_column_Ok in Hc. inversion Hb; subst. exact Hi.
Qed.

Lemma prepare_indicators_means_witness :
  length (held (indicators (after (prepare_samples ;; prepare_indicators) scenario)))
  = 15%nat.
Proof.
  destruct (prepare_indicators_means scenario)
    as (h & inds & isc & indsNorm & Hh & Hi & _ & _ & L & _).
  - vm_compute. reflexivity.
  - rewrite Hi. cbn [held]. rewrite L.
    assert (E : held (normDataHistory
                        (after (prepare_samples ;; prepare_indicators) scenario)) = h)
      by now rewrite Hh.
    rewrite <- E. vm_compute. reflexivity.
Defined.

(** ** A test proportion that is not a number *)

Lemma py_int_of_nan_product (x p : float) :
  is_nan p = true -> py_int (x * p)%float = Raise ValueError.
Proof.
  intros Hp. unfold py_int. rewrite mul_spec.
  assert (E : Prim2SF p = S754_nan) by (unfold Prim2SF; now rewrite Hp).
  rewrite E. unfold SF64mul, SFmul. now destruct (Prim2SF x).
Qed.

(** X5: with a NaN test proportion both splits fail with the [ValueError] of
    [int(nan)] before they assign anything: the instance stays exactly as it
    was. *)
Theorem split_with_nan_proportion (s : Stock) (h : array3) (i : array2) :
  is_nan (testProp s) = true ->
  normDataHistory s = Some h ->
  indicatorsNorm s = Some i ->
  split_data s = (s, Raise ValueError) /\
  split_indicator_data s = (s, Raise ValueError).
Proof.
  intros Hp Hh Hi.
  unfold split_data, split_indicator_data, split_index. run_method.
  rewrite Hh, Hi. cbn. rewrite !py_int_of_nan_product by assumption.
  split; reflexivity.
Qed.

Lemma split_with_nan_proportion_witness :
  split_data nan_proportion = (nan_proportion, Raise ValueError).
Proof.
  apply (split_with_nan_proportion nan_proportion
           (held (normDataHistory nan_proportion))
           (held (indicatorsNorm nan_proportion)));
    vm_compute; reflexivity.
Defined.

(** ** What a failed preparation leaves behind *)

Lemma slice_nil {A} (lo hi : option Z) : slice lo hi (@nil A) = [].
Proof. unfold slice. now rewrite skipn_nil, firstn_nil. Qed.

Lemma SFeqb_finite_refl (sg : bool) (m : positive) (e : Z) :
  SFeqb (S754_finite sg m e) (S754_finite sg m e) = true.
Proof.
  unfold SFeqb, SFcompare.
  destruct sg; rewrite Z.compare_refl, Pos.compare_cont_refl; reflexivity.
Qed.

(** [int(0 * p)] is 0 for a finite [p]; [0 * p] is NaN for an infinite one. *)
Lemma py_int_of_zero_product (p : float) :
  py_int (float_of_int 0 * p)%float
  = if is_nan p || is_infinity p then Raise ValueError else Ok 0.
Proof.
  assert (Hn : is_nan p = negb (SFeqb (Prim2SF p) (Prim2SF p)))
    by (unfold is_nan; now rewrite eqb_spec).
  assert (Hi : is_infinity p = SFeqb (SFabs (Prim2SF p)) (S754_infinity false))
    by (unfold is_infinity; rewrite eqb_spec, abs_spec; reflexivity).
  unfold py_int. rewrite mul_spec.
  replace (Prim2SF (float_of_int 0)) with (S754_zero false)
    by (vm_compute; reflexivity).
  rewrite Hn, Hi. destruct (Prim2SF p) as [sg|sg| |sg m e].
  - reflexivity.
  - destruct sg; reflexivity.
  - reflexivity.
  - cbn [SFabs]. rewrite SFeqb_finite_refl. reflexivity.
Qed.

(** X6: on a frame with no more rows than the window length, the failing
    [prepare_samples] has already stored empty sample and target arrays. A
    following [prepare_indicators] fails with [ValueError]. A following
    [split_data] completes, with empty partitions, when the test proportion is
    finite; when it is NaN or infinite, [int(0 * testProp)] raises
    [ValueError] and nothing is assigned. *)
Theorem failed_prepare_samples_leaves_empty_samples (s : Stock) :
  is_frame (data s) = true ->
  len (data s) <= numSeq s ->
  let s1 := after prepare_samples s in
  outcome prepare_samples s = Raise ValueError /\
  normDataHistory s1 = Some [] /\
  nextDayValsNorm s1 = Some [] /\
  nextDayVals s1 = Some [] /\
  outcome prepare_indicators s1 = Raise ValueError /\
  (is_nan (testProp s) || is_infinity (testProp s) = false ->
   outcome split_data s1 = Ok tt /\
   train_samplesX (after split_data s1) = Some [] /\
   test_samplesX (after split_data s1) = Some [] /\
   train_samplesY (after split_data s1) = Some [] /\
   test_samplesY (after split_data s1) = Some [] /\
   nextDayVals_test (after split_data s1) = Some []) /\
  (is_nan (testProp s) || is_infinity (testProp s) = true ->
   split_data s1 = (s1, Raise ValueError)).
Proof.
  intros HX Hshort s1. subst s1.
  destruct (fit_transform_frame (data s) HX) as (sc & Xn & Hfit & Htr & LXn & _).
  assert (Hrun : prepare_samples s
                 = (set_nextDayVals (Some [])
                      (set_nextDayValsNorm (Some [])
                         (set_normDataHistory (Some [])
                            (set_normalizedData (Some Xn)
                               (set_scaler sc (set_scaler MinMaxScaler_new s))))),
                    Raise ValueError)).
  { unfold prepare_samples. run_method.
    rewrite (as_2d_frame _ HX). cbn. rewrite Hfit. cbn. rewrite Htr. cbn.
    unfold windows, next_values.
    rewrite (py_range_nonpos (len Xn - numSeq s)) by len_lia.
    rewrite (py_range_nonpos (len (data s) - numSeq s)) by lia.
    reflexivity. }
  unfold after, outcome. rewrite Hrun. cbn [fst snd].
  set (s1 := set_nextDayVals _ _).
  assert (Hp : testProp s1 = testProp s) by reflexivity.
  split; [reflexivity|]. split; [reflexivity|]. split; [reflexivity|].
  split; [reflexivity|]. split; [reflexivity|]. split.
  - intros Hfin.
    assert (Hsplit : split_data s1
                     = (split_at (len (@nil array2) - 0) [] [] [] s1, Ok tt)).
    { apply split_data_run; subst s1; try reflexivity.
      cbn [testProp set_nextDayVals set_nextDayValsNorm set_normDataHistory
           set_normalizedData set_scaler].
      change (len (@nil array2)) with 0.
      rewrite py_int_of_zero_product, Hfin. reflexivity. }
    rewrite Hsplit. cbn [fst snd].
    repeat split; cbn; now rewrite slice_nil.
  - intros Hinf.
    unfold split_data, split_index. run_method.
    change (len (@nil array2)) with 0.
    rewrite py_int_of_zero_product, Hinf. reflexivity.
Qed.

Lemma failed_prepare_samples_leaves_empty_samples_witness :
  outcome prepare_samples too_short = Raise ValueError /\
  outcome split_data (after prepare_samples too_short) = Ok tt.
Proof.
  destruct (failed_prepare_samples_leaves_empty_samples too_short)
    as (H1 & _ & _ & _ & _ & H2 & _).
  - vm_compute. reflexivity.
  - vm_compute. discriminate.
  - split; [exact H1 | apply H2; vm_compute; reflexivity].
Defined.

(** ** The target scaler *)

Lemma row_op_single f (c : float) (r : array1) :
  exists r', row_op f [c] r = Ok r' /\ length r' = length r.
Proof.
  unfold row_op. destruct (length [c] =? length r)%nat eqn:E.
  - eexists. split; [reflexivity|].
    apply Nat.eqb_eq in E. rewrite length_map, length_combine. cbn in *. lia.
  - eexists. split; [reflexivity|]. now rewrite length_map.
Qed.

Lemma mapM_row_op_single f (c : float) (X : array2) :
  exists X', mapM (row_op f [c]) X = Ok X' /\ same_shape X X'.
Proof.
  induction X as [|r X (X' & E & IH)]; cbn.
  - exists []. split; [reflexivity | constructor].
  - destruct (row_op_single f c r) as (r' & Er & Lr).
    rewrite Er, E. exists (r' :: X'). split; [reflexivity|].
    constructor; [now symmetry | exact IH].
Qed.

Lemma same_shape_trans (x y z : array2) :
  same_shape x y -> same_shape y z -> same_shape x z.
Proof.
  unfold same_shape. intros H. revert z.
  induction H as [|a b x y Hab _ IH]; intros z Hz; inversion Hz; subst;
    constructor; [congruence | now apply IH].
Qed.

(** X7: after a completed [prepare_samples], [scaler] is no longer the scaler
    of the frame but the one fitted on the original-unit targets, with a
    single feature. Its inverse transform accepts every array with at least
    one row, one column and no infinity, and returns an array of the same
    shape; it rejects an array without rows with [ValueError]. *)
Theorem target_scaler_inverse_transform (s : Stock) :
  outcome prepare_samples s = Ok tt ->
  let sc := scaler (after prepare_samples s) in
  (exists scale min_, sc = MinMaxScaler_fitted [scale] [min_]) /\
  (exists y, nextDayVals (after prepare_samples s) = Some y /\
             MinMaxScaler_fit y = Ok sc) /\
  (forall X, check_array X = Ok tt ->
             exists X', MinMaxScaler_inverse_transform sc X = Ok X' /\
                        same_shape X X') /\
  MinMaxScaler_inverse_transform sc [] = Raise ValueError.
Proof.
  intros H sc. subst sc. apply method_result in H. revert H.
  generalize (after prepare_samples s). intros s1 H.
  apply prepare_samples_inv in H
    as (sc & ysc & Xn & yn & y & _ & _ & _ & _ & _ & Hysc & E1).
  subst s1. cbn.
  assert (Hshape : exists scale min_, ysc = MinMaxScaler_fitted [scale] [min_]).
  { unfold MinMaxScaler_fit in Hysc.
    destruct (check_array (expand_dims y)) eqn:Hc; [|discriminate].
    destruct y as [|v y]; [discriminate|].
    cbn in Hysc. inversion Hysc. eexists _, _. reflexivity. }
  destruct Hshape as (scale & min_ & ->).
  split; [now exists scale, min_|].
  split; [now exists (expand_dims y)|].
  split; [|reflexivity].
  intros X HX. unfold MinMaxScaler_inverse_transform. rewrite HX.
  destruct (mapM_row_op_single PrimFloat.sub min_ X) as (X1 & E1 & S1).
  destruct (mapM_row_op_single PrimFloat.div scale X1) as (X2 & E2 & S2).
  rewrite E1. exists X2. split; [exact E2|].
  eapply same_shape_trans; eassumption.
Qed.

Lemma target_scaler_inverse_transform_witness :
  exists scale min_,
    scaler (after prepare_samples scenario) = MinMaxScaler_fitted [scale] [min_].
Proof.
  apply (target_scaler_inverse_transform scenario).
  vm_compute. reflexivity.
Defined.

(** ** Test samples and their targets *)

(** X8: samples and split together. On a frame of [N] rows with
    [0 <= W < N], [M = N - W] and [0 <= k = int(M * testProp) <= M], test
    sample [j] is the window that starts at row [M - k + j] of the scaled
    frame, and its scaled target in [test_samplesY] and its original-unit
    target in [nextDayVals_test] are both the first column of the same day,
    row [M - k + j + W], of the scaled and of the raw frame. *)
Theorem test_targets_aligned (s : Stock) (k : Z) :
  is_frame (data s) = true ->
  0 <= numSeq s < len (data s) ->
  py_int (float_of_int (len (data s) - numSeq s) * testProp s)%float = Ok k ->
  0 <= k <= len (data s) - numSeq s ->
  let s' := after (prepare_samples ;; split_data) s in
  let first := Z.to_nat (len (data s) - numSeq s - k) in
  outcome (prepare_samples ;; split_data) s = Ok tt /\
  exists Xn,
    normalizedData s' = Some Xn /\
    length (held (test_samplesX s')) = Z.to_nat k /\
    forall j : nat, Z.of_nat j < k ->
      exists w row v row0 v0,
        nth_error (held (test_samplesX s')) j = Some w /\
        length w = Z.to_nat (numSeq s) /\
        (forall r : nat, Z.of_nat r < numSeq s ->
                         nth_error w r = nth_error Xn (first + j + r)) /\
        nth_error Xn (first + j + Z.to_nat (numSeq s)) = Some row /\
        nth_error row 0 = Some v /\
        nth_error (held (test_samplesY s')) j = Some [v] /\
        nth_error (data s) (first + j + Z.to_nat (numSeq s)) = Some row0 /\
        nth_error row0 0 = Some v0 /\
        nth_error (held (nextDayVals_test s')) j = Some [v0].
Proof.
  intros HX HW Hk Hrange s' first. subst s' first.
  destruct (prepare_samples_frame_run s HX HW)
    as (sc & ysc & Xn & _ & _ & LXn & FXn & Hrun).
  pose proof (is_frame_spec _ HX) as (_ & _ & Hwidth & Hrect).
  set (yn := map _ (py_range (len Xn - numSeq s))) in Hrun.
  set (y := map _ (py_range (len (data s) - numSeq s))) in Hrun.
  set (M := len (data s) - numSeq s) in *.
  set (s1 := samples_at sc ysc Xn (windows (numSeq s) Xn) yn y s) in Hrun.
  assert (LM : len (windows (numSeq s) Xn) = M).
  { unfold len. rewrite length_windows. subst M. len_lia. }
  assert (Hsplit : split_data s1
                   = (split_at (M - k) (windows (numSeq s) Xn)
                        (expand_dims yn) (expand_dims y) s1, Ok tt)).
  { rewrite <- LM. apply split_data_run; subst s1; try reflexivity.
    cbn. rewrite LM. exact Hk. }
  unfold after, outcome, bind. rewrite Hrun, Hsplit. cbn [fst snd].
  split; [reflexivity|].
  exists Xn. cbn.
  rewrite !slice_suffix, LM, !len_expand_dims.
  assert (Lyn : len yn = M).
  { subst yn. unfold len. rewrite length_map, length_py_range. subst M. len_lia. }
  assert (Ly : len y = M).
  { subst y. unfold len. rewrite length_map, length_py_range. len_lia. }
  rewrite Lyn, Ly, (clamp_index_inside M (M - k)) by lia.
  split; [reflexivity|].
  split.
  { rewrite length_skipn. unfold len in LM. lia. }
  intros j Hj.
  assert (Hi : Z.of_nat (Z.to_nat (M - k) + j) < len Xn - numSeq s) by len_lia.
  assert (Hi0 : Z.of_nat (Z.to_nat (M - k) + j) < len (data s) - numSeq s) by len_lia.
  destruct (nth_error_targets (numSeq s) _ Xn _ FXn Hwidth (proj1 HW) Hi)
    as (row & v & Erow & Ev & Eyn).
  destruct (nth_error_targets (numSeq s) _ (data s) _ Hrect Hwidth (proj1 HW) Hi0)
    as (row0 & v0 & Erow0 & Ev0 & Ey).
  exists (slice (Some (Z.of_nat (Z.to_nat (M - k) + j)))
                (Some (Z.of_nat (Z.to_nat (M - k) + j) + numSeq s)) Xn),
         row, v, row0, v0.
  rewrite !nth_error_skipn.
  repeat split; try assumption.
  - apply nth_error_windows. exact Hi.
  - apply length_slice_window; len_lia.
  - intros r Hr. rewrite nth_error_slice_window by len_lia.
    now rewrite Nat2Z.id.
Qed.

Lemma test_targets_aligned_witness :
  outcome (prepare_samples ;; split_data) scenario = Ok tt /\
  length (held (test_samplesX (after (prepare_samples ;; split_data) scenario)))
  = 3%nat.
Proof.
  destruct (test_targets_aligned scenario 3) as (H1 & Xn & _ & H2 & _).
  - vm_compute. reflexivity.
  - vm_compute. split; [discriminate | reflexivity].
  - vm_compute. reflexivity.
  - vm_compute. split; discriminate.
  - split; [exact H1 | exact H2].
Defined.

(** ** Training *)

Lemma prepare_samples_frame_2d (s s' : Stock) :
  prepare_samples s = (s', Ok tt) -> is_Series (data s) = false.
Proof.
  unfold prepare_samples. run_method. unfold as_2d.
  destruct (is_Series (data s)); [discriminate | reflexivity].
Qed.

Lemma prepared_indicator_columns (s : Stock) :
  outcome prepare s = Ok tt ->
  is_Series (data s) = false /\
  exists v rest, indicators (after prepare s) = Some ([v] :: rest).
Proof.
  intros H.
  assert (H2d : is_Series (data s) = false).
  { apply method_result in H. unfold prepare in H.
    apply bind_Ok_inv in H as (s1 & [] & H1 & _).
    eapply prepare_samples_frame_2d; eassumption. }
  split; [exact H2d|].
  destruct (prepare_inv s H)
    as (sc & ysc & Xn & yn & y & isc & inds & indsNorm & k
        & _ & _ & Hinds & Hifit & _ & _ & _ & _ & E4).
  rewrite E4. cbn.
  unfold MinMaxScaler_fit in Hifit.
  destruct (check_array inds) eqn:Hc; [|discriminate].
  destruct inds as [|r rest]; [discriminate|].
  destruct (windows (numSeq s) Xn) as [|w ws]; [discriminate|].
  cbn in Hinds. unfold indicator at 1 in Hinds.
  destruct (np_column 4 w); [|discriminate].
  destruct (mapM indicator ws); [|discriminate].
  inversion Hinds; subst. eexists _, _. reflexivity.
Qed.

Lemma prepare_samples_target_lengths (s s' : Stock) :
  prepare_samples s = (s', Ok tt) ->
  exists h yn y,
    normDataHistory s' = Some h /\ nextDayValsNorm s' = Some yn /\
    nextDayVals s' = Some y /\ len yn = len h /\ len y = len h.
Proof.
  unfold prepare_samples. run_method.
  destruct (as_2d (data s)) as [X|] eqn:HX; cbn; [|discriminate].
  apply as_2d_Ok in HX. subst X.
  destruct (MinMaxScaler_fit (data s)) as [sc|]; cbn; [|discriminate].
  destruct (MinMaxScaler_transform sc (data s)) as [Xn|] eqn:Htr; cbn; [|discriminate].
  destruct (np_array3 (windows (numSeq s) Xn)) as [h|]; cbn; [|discriminate].
  destruct (next_values (numSeq s) Xn) as [yn|] eqn:Hyn; cbn; [|discriminate].
  destruct (next_values (numSeq s) (data s)) as [y|] eqn:Hy; cbn; [|discriminate].
  destruct (MinMaxScaler_fit (expand_dims y)) as [ysc|]; cbn; [|discriminate].
  destruct (len h =? len (expand_dims yn)) eqn:Hassert; [|discriminate].
  intros H. inversion H; subst. cbn.
  exists h, (expand_dims yn), (expand_dims y).
  apply Z.eqb_eq in Hassert.
  repeat split; try reflexivity; [lia|].
  rewrite Hassert, !len_expand_dims.
  apply mapM_length in Hyn, Hy. apply MinMaxScaler_transform_length in Htr.
  rewrite length_py_range in Hyn, Hy. len_lia.
Qed.

Section Training.

Variable keras_input : Z -> Z -> result unit.
Variable keras_build : architecture -> result unit.
Variable keras_fit : architecture -> training -> result unit.

(** [fit_LSTM] on an instance that holds a DataFrame and at least one
    indicator, by what the engine answers. *)
Lemma fit_LSTM_run (s : Stock) (r : array1) (rest : array2) :
  is_Series (data s) = false ->
  indicators s = Some (r :: rest) ->
  let a := {| input_steps := numSeq s;
              input_features := Z.of_nat (width (data s));
              indicator_features := len r;
              lstm_units := numNeurons s |} in
  let t := {| train_x := train_samplesX s; train_ind := indicators_train s;
              train_y := train_samplesY s;
              fit_batch_size := batchSize s; fit_epochs := numEpochs s |} in
  fit_LSTM keras_input keras_build keras_fit s
  = match keras_input (numSeq s) (Z.of_nat (width (data s))) with
    | Raise e => (s, Raise e)
    | Ok _ =>
        match keras_build a with
        | Raise e => (s, Raise e)
        | Ok _ =>
            match keras_fit a t with
            | Raise e => (set_model (Model_compiled a) s, Raise e)
            | Ok _ => (set_model (Model_fitted a t) s, Ok tt)
            end
        end
    end.
Proof.
  intros H2d Hind a t. subst a t.
  unfold fit_LSTM, indicator_columns, shape_1. run_method.
  rewrite H2d, Hind. cbn.
  destruct (keras_input _ _) as [[]|e]; cbn; [|reflexivity].
  destruct (keras_build _) as [[]|e]; cbn; [|reflexivity].
  destruct (keras_fit _ _) as [[]|e]; cbn; reflexivity.
Qed.

(** X9: after a completed preparation, when the engine accepts the network
    and the fit, [fit_LSTM] completes and changes [model] only. The network
    is built for windows of [numSeq] rows by the frame's columns, one
    indicator and [numNeurons] units; the fit receives the three train
    partitions, which have one length, with [batchSize] and [numEpochs], and
    no test partition. *)
Theorem fit_LSTM_trains_on_train_partitions (s : Stock) :
  outcome prepare s = Ok tt ->
  let s' := after prepare s in
  let a := {| input_steps := numSeq s;
              input_features := Z.of_nat (width (data s));
              indicator_features := 1;
              lstm_units := numNeurons s |} in
  let t := {| train_x := train_samplesX s'; train_ind := indicators_train s';
              train_y := train_samplesY s';
              fit_batch_size := batchSize s; fit_epochs := numEpochs s |} in
  keras_input (numSeq s) (Z.of_nat (width (data s))) = Ok tt ->
  keras_build a = Ok tt ->
  keras_fit a t = Ok tt ->
  fit_LSTM keras_input keras_build keras_fit s'
  = (set_model (Model_fitted a t) s', Ok tt) /\
  len (held (train_ind t)) = len (held (train_x t)) /\
  len (held (train_y t)) = len (held (train_x t)).
Proof.
  intros H s' a t Hin Hbuild Hfit.
  destruct (prepared_indicator_columns s H) as (H2d & v & rest & Hind).
  destruct (prepare_inv s H)
    as (sc & ysc & Xn & yn & y & isc & inds & indsNorm & k
        & _ & _ & _ & _ & _ & Hlen & _ & E1 & E4).
  assert (Hkeep : data s' = data s /\ numSeq s' = numSeq s /\
                  numNeurons s' = numNeurons s /\ batchSize s' = batchSize s /\
                  numEpochs s' = numEpochs s).
  { subst s'. rewrite E4. cbn. repeat split; reflexivity. }
  destruct Hkeep as (Kd & Kw & Kn & Kb & Ke).
  split.
  - rewrite (fit_LSTM_run s' [v] rest); [|now rewrite Kd | exact Hind].
    rewrite Kd, Kw, Kn, Kb, Ke. cbn [len length Z.of_nat Pos.of_succ_nat].
    fold a. fold t. now rewrite Hin, Hbuild, Hfit.
  - destruct (prepare_samples_target_lengths s (after prepare_samples s))
      as (h' & yn' & y' & Hh' & Hyn' & _ & Lyn' & _).
    { apply method_result. apply method_result in H. unfold prepare in H.
      apply bind_Ok_inv in H as (s1 & [] & H1 & _).
      unfold outcome. now rewrite H1. }
    rewrite E1 in Hh', Hyn'. cbn in Hh', Hyn'.
    inversion Hh'; inversion Hyn'; subst h' yn'.
    subst t s'. cbn [train_x train_ind train_y]. rewrite E4. cbn.
    now rewrite !len_slice_prefix, Hlen, Lyn'.
Qed.

(** X10: after a completed preparation, a network that the engine refuses to
    build leaves the instance as it was; a fit that the engine refuses leaves
    the compiled, unfitted network in [model], in place of the model held
    before. Either way the engine's exception is the method's. *)
Theorem fit_LSTM_failure_modes (s : Stock) (e : exn) :
  outcome prepare s = Ok tt ->
  let s' := after prepare s in
  let a := {| input_steps := numSeq s;
              input_features := Z.of_nat (width (data s));
              indicator_features := 1;
              lstm_units := numNeurons s |} in
  let t := {| train_x := train_samplesX s'; train_ind := indicators_train s';
              train_y := train_samplesY s';
              fit_batch_size := batchSize s; fit_epochs := numEpochs s |} in
  keras_input (numSeq s) (Z.of_nat (width (data s))) = Ok tt ->
  (keras_build a = Raise e ->
   fit_LSTM keras_input keras_build keras_fit s' = (s', Raise e)) /\
  (keras_build a = Ok tt -> keras_fit a t = Raise e ->
   fit_LSTM keras_input keras_build keras_fit s'
   = (set_model (Model_compiled a) s', Raise e)).
Proof.
  intros H s' a t Hin.
  destruct (prepared_indicator_columns s H) as (H2d & v & rest & Hind).
  destruct (prepare_inv s H)
    as (sc & ysc & Xn & yn & y & isc & inds & indsNorm & k
        & _ & _ & _ & _ & _ & _ & _ & _ & E4).
  assert (Hkeep : data s' = data s /\ numSeq s' = numSeq s /\
                  numNeurons s' = numNeurons s /\ batchSize s' = batchSize s /\
                  numEpochs s' = numEpochs s).
  { subst s'. rewrite E4. cbn. repeat split; reflexivity. }
  destruct Hkeep as (Kd & Kw & Kn & Kb & Ke).
  assert (Hrun := fit_LSTM_run s' [v] rest).
  rewrite Kd, Kw, Kn, Kb, Ke in Hrun.
  cbn [len length Z.of_nat Pos.of_succ_nat] in Hrun.
  specialize (Hrun H2d Hind). cbv zeta in Hrun. fold a in Hrun. fold t in Hrun.
  rewrite Hin in Hrun.
  split.
  - intros Hbuild. now rewrite Hbuild in Hrun.
  - intros Hbuild Hfit. now rewrite Hbuild, Hfit in Hrun.
Qed.

End Training.

Lemma fit_LSTM_trains_on_train_partitions_witness :
  model (after naive_fit_LSTM (after prepare scenario))
  = Model_fitted
      {| input_steps := 5; input_features := 6; indicator_features := 1;
         lstm_units := 50 |}
      {| train_x := train_samplesX (after prepare scenario);
         train_ind := indicators_train (after prepare scenario);
         train_y := train_samplesY (after prepare scenario);
         fit_batch_size := 32; fit_epochs := 5 |}.
Proof.
  destruct (fit_LSTM_trains_on_train_partitions naive_input naive_build naive_fit
              scenario) as (H & _).
  - vm_compute. reflexivity.
  - reflexivity.
  - reflexivity.
  - reflexivity.
  - unfold naive_fit_LSTM, after at 1. rewrite H. vm_compute. reflexivity.
Defined.

Lemma fit_LSTM_failure_modes_witness :
  model (after (fit_LSTM naive_input naive_build refusing_fit) (after prepare scenario))
  = Model_compiled
      {| input_steps := 5; input_features := 6; indicator_features := 1;
         lstm_units := 50 |}.
Proof.
  destruct (fit_LSTM_failure_modes naive_input naive_build refusing_fit
              scenario ValueError) as (_ & H).
  - vm_compute. reflexivity.
  - reflexivity.
  - unfold after at 1. rewrite H; [vm_compute|..]; reflexivity.
Defined.

(** * The loss meter *)

Lemma to_float_Some (z : Z) (x : float) :
  AverageMeter.to_float z = Some x -> x = float_of_int z.
Proof.
  unfold AverageMeter.to_float. destruct (is_infinity (float_of_int z)); congruence.
Qed.

(** One [update], by how it ends. *)
Lemma update_cases (v : float) (n : Z) (m : AverageMeter.t) :
  match AverageMeter.update v n m with
  | (m', None) =>
      AverageMeter.count m + n <> 0 /\
      AverageMeter.count m' = AverageMeter.count m + n /\
      AverageMeter.val m' = AverageMeter.Float v /\
      exists sx, AverageMeter.sum m' = AverageMeter.Float sx /\
                 AverageMeter.avg m'
                 = AverageMeter.Float (sx / float_of_int (AverageMeter.count m'))
  | (m', Some ZeroDivisionError) =>
      AverageMeter.count m + n = 0 /\ AverageMeter.count m' = 0 /\
      AverageMeter.val m' = AverageMeter.Float v /\
      AverageMeter.avg m' = AverageMeter.avg m
  | (m', Some (Builtin e)) => e = OverflowError
  end.
Proof.
  unfold AverageMeter.update.
  destruct (AverageMeter.to_float n) as [fn|]; [|reflexivity].
  destruct (AverageMeter.number_to_float (AverageMeter.sum m)) as [s0|]; [|reflexivity].
  destruct (AverageMeter.to_float (AverageMeter.count m + n)) as [fc|] eqn:Hc;
    [|reflexivity].
  destruct (Z.eqb_spec (AverageMeter.count m + n) 0) as [E|E]; cbn.
  - now rewrite E.
  - repeat split; try assumption. eexists. split; [reflexivity|].
    now rewrite (to_float_Some _ _ Hc).
Qed.

(** X11: starting from a count that is not negative, a run of updates with
    positive [n] never ends in [ZeroDivisionError]; when the run completes,
    [count] has grown by the sum of the [n], and after at least one update
    [val] is the last value given and [avg] is [sum / count]. *)
Theorem updates_with_positive_weights
    (calls : list (float * Z)) (m : AverageMeter.t) :
  0 <= AverageMeter.count m ->
  Forall (fun c => 0 < snd c) calls ->
  let r := AverageMeter.updates calls m in
  snd r <> Some ZeroDivisionError /\
  (snd r = None ->
   AverageMeter.count (fst r)
   = AverageMeter.count m + fold_right Z.add 0 (map snd calls) /\
   (calls <> [] ->
    AverageMeter.val (fst r) = AverageMeter.Float (fst (last calls (0%float, 0))) /\
    exists sx, AverageMeter.sum (fst r) = AverageMeter.Float sx /\
               AverageMeter.avg (fst r)
               = AverageMeter.Float (sx / float_of_int (AverageMeter.count (fst r))))).
Proof.
  intros Hm Hcalls. revert m Hm.
  induction Hcalls as [|[v n] calls Hn _ IH]; intros m Hm; cbn.
  - split; [discriminate|]. intros _. split; [lia | congruence].
  - cbn in Hn. pose proof (update_cases v n m) as Hu.
    destruct (AverageMeter.update v n m) as [m' [e|]]; cbn.
    + destruct e as [e|]; [split; discriminate|]. lia.
    + destruct Hu as (_ & Hc & Hv & Havg).
      destruct (IH m') as (IH1 & IH2); [lia|].
      split; [exact IH1|]. intros Hr. destruct (IH2 Hr) as (IHc & IHl).
      split; [lia|]. intros _.
      destruct calls as [|c calls]; [|apply IHl; discriminate].
      cbn. split; assumption.
Qed.

Lemma updates_with_positive_weights_witness :
  AverageMeter.count
    (fst (AverageMeter.updates [(0.5%float, 16); (0.25%float, 16)] AverageMeter.init))
  = 32.
Proof.
  destruct (updates_with_positive_weights [(0.5%float, 16); (0.25%float, 16)]
              AverageMeter.init) as (_ & H).
  - cbn. lia.
  - repeat constructor.
  - destruct H as (H & _); [vm_compute; reflexivity | exact H].
Defined.

(** * The classification dataset *)

Lemma py_index_negative {A} (l : list A) (k : Z) (d : A) :
  - len l <= k < 0 -> py_index l k = Ok (nth (Z.to_nat (k + len l)) l d).
Proof.
  intros H. unfold py_index.
  destruct (Z.ltb_spec k 0); [|lia].
  destruct (Z.leb_spec 0 (k + len l)); [|lia].
  destruct (Z.ltb_spec (k + len l) (len l)); [|lia].
  cbn. destruct (nth_error l (Z.to_nat (k + len l))) as [a|] eqn:En.
  - now rewrite (nth_error_nth _ _ _ En).
  - apply nth_error_None in En. unfold len in *. lia.
Qed.

Lemma py_index_outside {A} (l : list A) (k : Z) :
  len l <= k \/ k < - len l -> py_index l k = Raise IndexError.
Proof.
  intros H. unfold py_index. pose proof (len_nonneg l).
  destruct (Z.ltb_spec k 0).
  - destruct (Z.leb_spec 0 (k + len l)); [lia | reflexivity].
  - destruct (Z.leb_spec 0 k); [|lia].
    destruct (Z.ltb_spec k (len l)); [lia | reflexivity].
Qed.

(** X14: in a dataset that was built, item [i] for [0 <= i < n] is sample [i]
    with label [i], item [i - n] is the same item (indices count from the
    end), and every index outside [-n, n) raises [IndexError]. *)
Theorem Dataset_getitem_in_bounds
    (data : array2 * list Z) (inc onc : Z) (d : Tumor.Dataset) :
  Tumor.Dataset_init data inc onc = Ok d ->
  let n := Tumor.Dataset_len d in
  (forall i, 0 <= i < n ->
     exists x y,
       nth_error (fst data) (Z.to_nat i) = Some x /\
       nth_error (snd data) (Z.to_nat i) = Some y /\
       Tumor.Dataset_getitem d i = Ok (x, y) /\
       Tumor.Dataset_getitem d (i - n) = Ok (x, y)) /\
  (forall i, n <= i \/ i < - n -> Tumor.Dataset_getitem d i = Raise IndexError).
Proof.
  unfold Tumor.Dataset_init, Tumor.Dataset_len. cbn.
  destruct (Z.eqb_spec (len (fst data)) (len (snd data))) as [E|]; [|discriminate].
  intros H. inversion H; subst d. cbn. clear H.
  destruct data as [X Y]. cbn in *. split.
  - intros i Hi.
    destruct (nth_error X (Z.to_nat i)) as [x|] eqn:Ex.
    2:{ apply nth_error_None in Ex. unfold len in *. lia. }
    destruct (nth_error Y (Z.to_nat i)) as [y|] eqn:Ey.
    2:{ apply nth_error_None in Ey. unfold len in *. lia. }
    exists x, y. unfold Tumor.Dataset_getitem. cbn.
    rewrite (py_index_inside X i x), (py_index_inside Y i y) by lia.
    rewrite (py_index_negative X (i - len X) x) by lia.
    rewrite (py_index_negative Y (i - len X) y) by lia.
    replace (i - len X + len X) with i by lia.
    replace (i - len X + len Y) with i by lia.
    rewrite (nth_error_nth _ _ _ Ex), (nth_error_nth _ _ _ Ey).
    repeat split.
  - intros i Hi. unfold Tumor.Dataset_getitem. cbn.
    now rewrite (py_index_outside X i Hi).
Qed.

Lemma Dataset_getitem_in_bounds_witness :
  Tumor.Dataset_getitem
    {| Tumor.input_num_classes := 10; Tumor.output_num_classes := 4;
       Tumor.data_input := [[1%float]; [2%float]]; Tumor.data_output := [0; 3] |} 2
  = Raise IndexError.
Proof.
  apply (Dataset_getitem_in_bounds ([[1%float]; [2%float]], [0; 3]) 10 4).
  - reflexivity.
  - left. cbn. lia.
Defined.

(** * Labels and class weights *)

(** ** The order of strings *)

Lemma string_leb_refl (s : string) : String.leb s s = true.
Proof. destruct (String.leb_total s s); assumption. Qed.

Lemma string_compare_trans (s1 s2 s3 : string) :
  String.compare s1 s2 <> Gt -> String.compare s2 s3 <> Gt ->
  String.compare s1 s3 <> Gt.
Proof.
  revert s2 s3. induction s1 as [|a s1 IH]; intros [|b s2] [|c s3]; cbn;
    try congruence.
  unfold Ascii.compare.
  destruct (N.compare_spec (Ascii.N_of_ascii a) (Ascii.N_of_ascii b)) as [Eab|Lab|Lab],
           (N.compare_spec (Ascii.N_of_ascii b) (Ascii.N_of_ascii c)) as [Ebc|Lbc|Lbc],
           (N.compare_spec (Ascii.N_of_ascii a) (Ascii.N_of_ascii c)) as [Eac|Lac|Lac];
    try congruence; try lia; try (intros; discriminate).
  apply IH.
Qed.

Lemma string_leb_trans (s1 s2 s3 : string) :
  String.leb s1 s2 = true -> String.leb s2 s3 = true -> String.leb s1 s3 = true.
Proof.
  unfold String.leb. intros H12 H23.
  pose proof (string_compare_trans s1 s2 s3) as H.
  destruct (String.compare s1 s2), (String.compare s2 s3), (String.compare s1 s3);
    try reflexivity; try discriminate; exfalso; apply H; congruence.
Qed.

Lemma string_leb_neq_ltb (s1 s2 : string) :
  String.leb s1 s2 = true -> s1 <> s2 -> String.ltb s1 s2 = true.
Proof.
  unfold String.leb, String.ltb. intros H Hne.
  destruct (String.compare s1 s2) eqn:E; try reflexivity; try discriminate.
  apply String.compare_eq_iff in E. contradiction.
Qed.

(** ** [sorted] *)

Lemma insert_perm (x : string) (l : list string) :
  Permutation (Tumor.insert x l) (x :: l).
Proof.
  induction l as [|y l IH]; cbn; [reflexivity|].
  destruct (String.leb x y); [reflexivity|].
  rewrite IH. apply perm_swap.
Qed.

Lemma py_sorted_perm (l : list string) : Permutation (Tumor.py_sorted l) l.
Proof.
  induction l as [|x l IH]; cbn; [reflexivity|].
  rewrite insert_perm. now constructor.
Qed.

Lemma insert_sorted (x : string) (l : list string) :
  StronglySorted (fun a b => String.leb a b = true) l ->
  StronglySorted (fun a b => String.leb a b = true) (Tumor.insert x l).
Proof.
  induction 1 as [|y l Hl IH Hy]; cbn.
  - repeat constructor.
  - destruct (String.leb x y) eqn:E.
    + constructor; [now constructor|].
      constructor; [assumption|].
      eapply Forall_impl; [|exact Hy]. intros z Hz. cbn in Hz.
      eapply string_leb_trans; eassumption.
    + constructor; [assumption|].
      assert (Hp := insert_perm x l).
      apply Forall_forall. intros z Hz.
      apply (Permutation_in _ Hp) in Hz as [<-|Hz].
      * destruct (String.leb_total x y); congruence.
      * rewrite Forall_forall in Hy. now apply Hy.
Qed.

Lemma py_sorted_sorted (l : list string) :
  StronglySorted (fun a b => String.leb a b = true) (Tumor.py_sorted l).
Proof.
  induction l as [|x l IH]; cbn; [constructor | now apply insert_sorted].
Qed.

(** A sorted list is determined by its elements. *)
Lemma sorted_perm_unique (l1 l2 : list string) :
  StronglySorted (fun a b => String.leb a b = true) l1 ->
  StronglySorted (fun a b => String.leb a b = true) l2 ->
  Permutation l1 l2 -> l1 = l2.
Proof.
  intros H1. revert l2. induction H1 as [|a l1 Hs1 IH Ha]; intros l2 H2 Hp.
  - apply Permutation_nil in Hp. now subst.
  - destruct H2 as [|b l2 Hs2 Hb].
    + apply Permutation_sym, Permutation_nil in Hp. discriminate.
    + assert (Eab : a = b).
      { assert (Hab : String.leb a b = true).
        { assert (Hin : In b (a :: l1))
            by (apply (Permutation_in _ (Permutation_sym Hp)); now left).
          destruct Hin as [->|Hin]; [apply string_leb_refl|].
          rewrite Forall_forall in Ha. now apply Ha. }
        assert (Hba : String.leb b a = true).
        { assert (Hin : In a (b :: l2)) by (apply (Permutation_in _ Hp); now left).
          destruct Hin as [->|Hin]; [apply string_leb_refl|].
          rewrite Forall_forall in Hb. now apply Hb. }
        now apply String.leb_antisym. }
      subst b. f_equal. apply IH; [assumption|].
      eapply Permutation_cons_inv; eassumption.
Qed.

Lemma sorted_nodup_strict (l : list string) :
  StronglySorted (fun a b => String.leb a b = true) l -> NoDup l ->
  StronglySorted (fun a b => String.ltb a b = true) l.
Proof.
  induction 1 as [|a l Hs IH Ha]; intros Hnd; constructor.
  - apply IH. now inversion Hnd.
  - inversion Hnd; subst. apply Forall_forall. intros b Hb.
    rewrite Forall_forall in Ha. apply string_leb_neq_ltb; [now apply Ha|].
    intros ->. contradiction.
Qed.

Lemma labels_sorted_labels (file : Tumor.label_file) :
  NoDup (fst (Tumor.labels_and_weights file)) /\
  (forall l, In l (fst (Tumor.labels_and_weights file))
             <-> In l (Tumor.labels_all file)).
Proof.
  cbn. set (all := Tumor.labels_all file).
  assert (Hp := py_sorted_perm (Tumor.py_set all)).
  split.
  - eapply Permutation_NoDup; [apply Permutation_sym, Hp|]. apply NoDup_nodup.
  - intros l. split; intros Hl.
    + apply (Permutation_in _ Hp) in Hl. now apply nodup_In in Hl.
    + apply (Permutation_in _ (Permutation_sym Hp)). now apply nodup_In.
Qed.

(** X15: the labels that [labels_and_weights] returns are exactly the labels
    that occur in the label file, each once, in strictly increasing order;
    the order in which the set of labels is listed before sorting does not
    matter. *)
Theorem labels_sorted_and_distinct (file : Tumor.label_file) :
  let labels := fst (Tumor.labels_and_weights file) in
  StronglySorted (fun a b => String.ltb a b = true) labels /\
  NoDup labels /\
  (forall l, In l labels <-> In l (Tumor.labels_all file)) /\
  (forall order, Permutation order (Tumor.py_set (Tumor.labels_all file)) ->
                 Tumor.py_sorted order = labels).
Proof.
  cbn. set (all := Tumor.labels_all file).
  assert (Hp := py_sorted_perm (Tumor.py_set all)).
  assert (Hs := py_sorted_sorted (Tumor.py_set all)).
  assert (Hnd : NoDup (Tumor.py_sorted (Tumor.py_set all))).
  { eapply Permutation_NoDup; [apply Permutation_sym, Hp|]. apply NoDup_nodup. }
  repeat split.
  - now apply sorted_nodup_strict.
  - exact Hnd.
  - intros Hl. apply (Permutation_in _ Hp) in Hl. now apply nodup_In in Hl.
  - intros Hl. apply (Permutation_in _ (Permutation_sym Hp)). now apply nodup_In.
  - intros order Ho. apply sorted_perm_unique; try apply py_sorted_sorted.
    rewrite py_sorted_perm, Ho. now symmetry.
Qed.

Lemma labels_sorted_and_distinct_witness :
  Tumor.py_sorted ["LUSC"; "GTEX"; "LUAD"]%string
  = fst (Tumor.labels_and_weights five_labels).
Proof.
  apply (labels_sorted_and_distinct five_labels).
  vm_compute. constructor. apply perm_swap.
Defined.

(** ** Counts and weights *)

Lemma list_sum_head (n : nat) (l : list nat) :
  list_sum (n :: l) = (n + list_sum l)%nat.
Proof. reflexivity. Qed.

Lemma list_sum_count_cons (a : string) (L l : list string) :
  list_sum (map (count_occ string_dec (a :: L)) l)
  = (list_sum (map (count_occ string_dec L) l) + count_occ string_dec l a)%nat.
Proof.
  induction l as [|x l IH]; [reflexivity|].
  cbn [map]. rewrite !list_sum_head, IH. cbn [count_occ].
  destruct (string_dec a x) as [Hax|Hax], (string_dec x a) as [Hxa|Hxa];
    try congruence; lia.
Qed.

Lemma list_sum_counts (L l : list string) :
  NoDup l -> (forall x, In x L -> In x l) ->
  list_sum (map (count_occ string_dec L) l) = length L.
Proof.
  intros Hnd. induction L as [|a L IH]; intros Hin.
  - clear Hnd Hin. induction l as [|x l IHl]; [reflexivity|].
    cbn [map]. rewrite list_sum_head, IHl. reflexivity.
  - rewrite list_sum_count_cons, IH by (intros x Hx; apply Hin; now right).
    assert (Ha : In a l) by (apply Hin; now left).
    rewrite (proj1 (NoDup_count_occ' string_dec l) Hnd a Ha). cbn. lia.
Qed.

Lemma sum_of_nat_counts (f : string -> nat) (l : list string) :
  fold_right Z.add 0 (map (fun x => Z.of_nat (f x)) l) = Z.of_nat (list_sum (map f l)).
Proof.
  induction l as [|x l IH]; [reflexivity|].
  cbn [map fold_right]. rewrite list_sum_head, IH. lia.
Qed.

(** X16: [labels_and_weights] returns one weight per label, the binary32
    quotient of 1 by the number of samples that carry the label; every such
    number is at least 1, so no weight divides by zero, and the numbers add
    up to the number of samples in the label file. *)
Theorem label_counts_and_weights (file : Tumor.label_file) :
  let all := Tumor.labels_all file in
  let labels := fst (Tumor.labels_and_weights file) in
  let weights := snd (Tumor.labels_and_weights file) in
  length weights = length labels /\
  Forall (fun l => 1 <= Tumor.py_count all l) labels /\
  fold_right Z.add 0 (map (Tumor.py_count all) labels) = len file /\
  (forall (i : nat) (l : string),
      nth_error labels i = Some l ->
      nth_error weights i
      = Some (Tumor.float32_div (Tumor.float32_of_int 1)
                (Tumor.float32_of_int (Tumor.py_count all l)))).
Proof.
  intros all labels weights.
  destruct (labels_sorted_labels file) as (Hnd & Hin).
  fold all in Hin. fold labels in Hnd, Hin.
  subst weights. cbn [Tumor.labels_and_weights snd]. fold all. fold labels.
  repeat split.
  - now rewrite !length_map.
  - apply Forall_forall. intros l Hl. apply Hin in Hl. unfold Tumor.py_count.
    apply (count_occ_In string_dec) in Hl. lia.
  - unfold Tumor.py_count.
    rewrite (sum_of_nat_counts (count_occ string_dec all)).
    rewrite list_sum_counts; [|exact Hnd | intros x Hx; now apply Hin].
    subst all. unfold Tumor.labels_all, len. now rewrite length_map.
  - intros i l Hl. subst labels all.
    cbn [Tumor.labels_and_weights fst snd] in *.
    rewrite !nth_error_map, Hl. reflexivity.
Qed.

Lemma label_counts_and_weights_witness :
  nth_error (snd (Tumor.labels_and_weights five_labels)) 2
  = Some (Tumor.float32_div (Tumor.float32_of_int 1) (Tumor.float32_of_int 1)).
Proof.
  destruct (label_counts_and_weights five_labels) as (_ & _ & _ & H).
  etransitivity; [apply (H 2%nat "LUSC"%string) |]; vm_compute; reflexivity.
Defined.

(** ** The dictionary of labels *)

Lemma dict_fold_notin (l : list string) (start : nat) (d : Tumor.dict) (k : string) :
  ~ In k l ->
  fold_left (fun d vk => Tumor.dict_set d (snd vk) (fst vk))
            (combine (map Z.of_nat (seq start (length l))) l) d k = d k.
Proof.
  revert start d. induction l as [|x l IH]; intros start d Hk; [reflexivity|].
  cbn. rewrite IH by (intros H; apply Hk; now right).
  unfold Tumor.dict_set. destruct (String.eqb_spec k x) as [->|]; [|reflexivity].
  exfalso. apply Hk. now left.
Qed.

Lemma dict_fold_nth (l : list string) (start : nat) (d : Tumor.dict)
    (k : string) (i : nat) :
  NoDup l -> nth_error l i = Some k ->
  fold_left (fun d vk => Tumor.dict_set d (snd vk) (fst vk))
            (combine (map Z.of_nat (seq start (length l))) l) d k
  = Some (Z.of_nat (start + i)).
Proof.
  revert start d i. induction l as [|x l IH]; intros start d i Hnd Hi.
  - destruct i; discriminate.
  - inversion Hnd; subst. cbn. destruct i as [|i]; cbn in Hi.
    + inversion Hi; subst. rewrite dict_fold_notin by assumption.
      unfold Tumor.dict_set. rewrite String.eqb_refl. do 2 f_equal. lia.
    + rewrite (IH (S start) _ i) by assumption. do 2 f_equal. lia.
Qed.

(** X17: the dictionary that [split_data] builds gives every label of the
    label file its position in the list of labels that [labels_and_weights]
    returns, and nothing to any other string. A code therefore lies below the
    number of classes, leads back to its label, and belongs to one label
    only. *)
Theorem labels_dict_codes (file : Tumor.label_file) :
  let labels := fst (Tumor.labels_and_weights file) in
  (forall (i : nat) (l : string),
      nth_error labels i = Some l -> Tumor.labels_dict file l = Some (Z.of_nat i)) /\
  (forall l, ~ In l (Tumor.labels_all file) -> Tumor.labels_dict file l = None) /\
  (forall l c, Tumor.labels_dict file l = Some c ->
               0 <= c < len labels /\ nth_error labels (Z.to_nat c) = Some l) /\
  (forall l1 l2 c, Tumor.labels_dict file l1 = Some c ->
                   Tumor.labels_dict file l2 = Some c -> l1 = l2).
Proof.
  intros labels.
  destruct (labels_sorted_labels file) as (Hnd & Hin). fold labels in Hnd, Hin.
  assert (Hcode : forall (i : nat) (l : string),
             nth_error labels i = Some l ->
             Tumor.labels_dict file l = Some (Z.of_nat i)).
  { intros i l Hl. unfold Tumor.labels_dict, Tumor.enumerate.
    now rewrite (dict_fold_nth _ 0 _ l i Hnd Hl). }
  assert (Hnone : forall l, ~ In l labels -> Tumor.labels_dict file l = None).
  { intros l Hl. unfold Tumor.labels_dict, Tumor.enumerate.
    now rewrite dict_fold_notin. }
  assert (Hback : forall l c, Tumor.labels_dict file l = Some c ->
                    0 <= c < len labels /\ nth_error labels (Z.to_nat c) = Some l).
  { intros l c Hc. destruct (in_dec string_dec l labels) as [Hl|Hl].
    - apply In_nth_error in Hl as (i & Hi).
      rewrite (Hcode i l Hi) in Hc. inversion Hc; subst c.
      rewrite Nat2Z.id. split; [|exact Hi].
      assert (i < length labels)%nat by (apply nth_error_Some; congruence).
      unfold len. lia.
    - rewrite (Hnone l Hl) in Hc. discriminate. }
  split; [exact Hcode|]. split; [|split; [exact Hback|]].
  - intros l Hl. apply Hnone. intros H. apply Hl. now apply Hin.
  - intros l1 l2 c H1 H2. apply Hback in H1 as (_ & H1), H2 as (_ & H2). congruence.
Qed.

Lemma labels_dict_codes_witness :
  Tumor.labels_dict five_labels "LUAD"%string = Some 1.
Proof.
  destruct (labels_dict_codes five_labels) as (H & _).
  apply (H 1%nat "LUAD"%string). vm_compute. reflexivity.
Defined.
